(** * Habit tracker (app.py): data model, request handlers, weekly progress

    A shallow embedding of [app.py].  The two SQL tables are lists of rows
    in rowid order, each handler is a function from the store to either a
    committed new store or a raised exception (nothing is committed then),
    and the index view computes its dictionaries with finite maps and
    binary64 floats, as the Python code does. *)

From Stdlib Require Import ZArith Lia Floats Uint63.
From stdpp Require Import gmap list sets strings sorting.

Local Open Scope Z_scope.

(** ** Python values *)

(** A Python [str] is a sequence of Unicode code points; [==] and [<] on
    [str] compare the code points, [<] lexicographically. *)
Abbreviation pystr := (list Z).

(** The text of an ASCII literal as code points. *)
Fixpoint str_of (s : string) : pystr :=
  match s with
  | EmptyString => []
  | String a s' => Z.of_N (Ascii.N_of_ascii a) :: str_of s'
  end.

Fixpoint str_ltb (a b : pystr) : bool :=
  match a, b with
  | _, [] => false
  | [], _ :: _ => true
  | x :: a', y :: b' => (x <? y) || ((x =? y) && str_ltb a' b')
  end.

(** [str.lower] restricted to ASCII letters; on a string of ASCII
    characters it is what Python's [str.lower] returns.  The development
    is parametric in the lower-casing function (see [Section Index]); this
    instance is used on concrete ASCII inputs only. *)
Definition ascii_lower : pystr -> pystr :=
  map (fun c => if (65 <=? c) && (c <=? 90) then c + 32 else c).

(** The time-of-day literals of the source. *)
Definition PARTLY_SUNNY : pystr := [9925; 65039].   (* U+26C5 U+FE0F *)
Definition SUN : pystr := [9728; 65039].            (* U+2600 U+FE0F *)
Definition SUNSET : pystr := [127751].              (* U+1F307 *)
Definition SHOOTING_STAR : pystr := [127776].       (* U+1F320 *)

(** The trend icons of the source. *)
Definition IMPROVED : pystr := [128200].            (* U+1F4C8 *)
Definition WORSENED : pystr := [128201].            (* U+1F4C9 *)
Definition FLAT : pystr := [10134].                 (* U+2796 *)

(** [a / b] on two Python ints that fit a double exactly: both are
    converted to binary64 and divided with IEEE rounding. *)
Definition int_truediv (a b : Z) : float :=
  PrimFloat.div (PrimFloat.of_uint63 (Uint63.of_Z a))
                (PrimFloat.of_uint63 (Uint63.of_Z b)).

(** [sum(...)] over a generator of ints: starts at 0, adds left to right. *)
Definition py_sum (l : list Z) : Z := foldl Z.add 0 l.

(** ** datetime.date

    A date is its proleptic Gregorian ordinal ([date.toordinal()]):
    0001-01-01 is 1 and a Monday, 9999-12-31 is 3652059.  Arithmetic with a
    [timedelta] that leaves this range raises [OverflowError]. *)
Module date.
Definition MINORDINAL : Z := 1.
Definition MAXORDINAL : Z := 3652059.

Definition valid (d : Z) : bool := (MINORDINAL <=? d) && (d <=? MAXORDINAL).

(** [d.weekday()], Monday = 0: [(self.toordinal() + 6) % 7]. *)
Definition weekday (d : Z) : Z := (d + 6) mod 7.

(** [d + timedelta(days=k)]; [None] is [OverflowError]. *)
Definition add (d k : Z) : option Z :=
  if valid (d + k) then Some (d + k) else None.

(** [d - timedelta(days=k)]. *)
Definition sub (d k : Z) : option Z := add d (- k).
End date.

(** ** The two tables *)

Module Habit.
Record t := mk {
  id : Z;
  name : pystr;
  description : option pystr;      (* nullable column; None is NULL *)
  created_at : Z;
  time_of_day : pystr
}.
(** The column default declared by the model: U+2600 U+FE0F, commented
    [# day] in the source. *)
Definition default_time_of_day : pystr := SUN.
End Habit.

Module Completion.
Record t := mk {
  id : Z;
  habit_id : Z;
  date : Z;
  completed : bool;
  (* Freeze habit info at time of creation *)
  name : pystr;
  description : option pystr;
  time_of_day : pystr
}.
End Completion.

(** The store: both tables, rows in rowid order (the order an unordered
    query returns them in). *)
Record Store := mkStore {
  habits : list Habit.t;
  completions : list Completion.t
}.

Definition empty_store : Store := mkStore [] [].

(** The key an insert assigns to an [INTEGER PRIMARY KEY] column: one more
    than the largest key in use, 1 in an empty table. *)
Definition next_id (ids : list Z) : Z := 1 + foldr Z.max 0 ids.

(** ** Exceptions and the handler monad *)

Inductive Exn :=
| NotFound              (* werkzeug NotFound, raised by get_or_404 *)
| BadRequestKeyError    (* request.form[k] on a missing field *)
| AttributeError        (* an attribute of None *)
| OverflowError         (* date arithmetic out of range *)
| KeyError.             (* d[k] on a missing key *)

Inductive result (A : Type) :=
| Ok (a : A)
| Raise (e : Exn).
Arguments Ok {A} a.
Arguments Raise {A} e.

Definition bind {A B} (r : result A) (k : A -> result B) : result B :=
  match r with
  | Ok a => k a
  | Raise e => Raise e
  end.

Notation "x <~ r ; k" := (bind r (fun x => k))
  (at level 100, r at next level, right associativity).

Definition or_raise {A} (e : Exn) (o : option A) : result A :=
  match o with
  | Some a => Ok a
  | None => Raise e
  end.

(** The HTTP status a raised exception is answered with. *)
Definition status_of_exn (e : Exn) : Z :=
  match e with
  | NotFound => 404
  | BadRequestKeyError => 400
  | AttributeError | OverflowError | KeyError => 500
  end.

Inductive Response :=
| Redirect_index                       (* redirect(url_for('index')) *)
| Render_edit_habit (habit : Habit.t). (* render_template('edit_habit.html') *)

(** ** Queries *)

(** [Habit.query.get(habit_id)]. *)
Definition Habit_get (habit_id : Z) (st : Store) : option Habit.t :=
  find (fun h => bool_decide (Habit.id h = habit_id)) (habits st).

(** [Habit.query.get_or_404(habit_id)]. *)
Definition Habit_get_or_404 (habit_id : Z) (st : Store) : result Habit.t :=
  or_raise NotFound (Habit_get habit_id st).

(** [Completion.query.filter_by(habit_id=.., date=..)]. *)
Definition Completion_filter_by (habit_id day : Z) (cs : list Completion.t)
  : list Completion.t :=
  filter (fun c => Completion.habit_id c = habit_id /\ Completion.date c = day) cs.

(** [db.session.delete(c)] for a completion row: DELETE by primary key. *)
Definition Completion_delete (c : Completion.t) (cs : list Completion.t)
  : list Completion.t :=
  filter (fun c' => Completion.id c' <> Completion.id c) cs.

(** A request form: field name to value. *)
Abbreviation Form := (gmap string pystr).

(** ** Mutating handlers

    Each returns the response and the committed store, or the exception
    raised before [db.session.commit()]; the store is then unchanged. *)

Definition toggle_completion (habit_id day : Z) (st : Store)
  : result (Response * Store) :=
  let habit := Habit_get habit_id st in
  (* habit.name on None raises AttributeError *)
  name <~ or_raise AttributeError (Habit.name <$> habit);
  description <~ or_raise AttributeError (Habit.description <$> habit);
  time_of_day <~ or_raise AttributeError (Habit.time_of_day <$> habit);
  match head (Completion_filter_by habit_id day (completions st)) with
  | Some existing =>
      Ok (Redirect_index,
          mkStore (habits st) (Completion_delete existing (completions st)))
  | None =>
      let new_completion :=
        Completion.mk (next_id (Completion.id <$> completions st))
                      habit_id day true name description time_of_day in
      Ok (Redirect_index,
          mkStore (habits st) (completions st ++ [new_completion]))
  end.

Definition start_of_week (today : Z) : result Z :=
  or_raise OverflowError (date.sub today (date.weekday today)).

Definition reset_week (today : Z) (st : Store) : result (Response * Store) :=
  start <~ start_of_week today;
  end_of_week <~ or_raise OverflowError (date.add start 6);
  let selected :=
    filter (fun c => start <= Completion.date c <= end_of_week) (completions st) in
  Ok (Redirect_index,
      mkStore (habits st)
              (foldl (fun cs c => Completion_delete c cs) (completions st) selected)).

Definition add_habit (form : Form) (today : Z) (st : Store)
  : result (Response * Store) :=
  name <~ or_raise BadRequestKeyError (form !! "name"%string);
  let description := default [] (form !! "description"%string) in
  let time_of_day := default PARTLY_SUNNY (form !! "time_of_day"%string) in
  let new_habit :=
    Habit.mk (next_id (Habit.id <$> habits st))
             name (Some description) today time_of_day in
  Ok (Redirect_index, mkStore (habits st ++ [new_habit]) (completions st)).

Definition delete_habit (habit_id : Z) (st : Store) : result (Response * Store) :=
  habit <~ Habit_get_or_404 habit_id st;
  (* Completion.query.filter_by(habit_id=habit.id).delete() *)
  let cs1 := filter (fun c => Completion.habit_id c <> Habit.id habit) (completions st) in
  (* db.session.delete(habit): the relationship's cascade deletes the
     completions still attached, then the habit row goes *)
  let attached := filter (fun c => Completion.habit_id c = Habit.id habit) cs1 in
  let cs2 := foldl (fun cs c => Completion_delete c cs) cs1 attached in
  Ok (Redirect_index,
      mkStore (filter (fun h => Habit.id h <> Habit.id habit) (habits st)) cs2).

(** An UPDATE of the row(s) with the habit's primary key. *)
Definition Habit_update (habit : Habit.t) (hs : list Habit.t) : list Habit.t :=
  (fun h => if bool_decide (Habit.id h = Habit.id habit) then habit else h) <$> hs.

Definition edit_habit_POST (habit_id : Z) (form : Form) (st : Store)
  : result (Response * Store) :=
  habit <~ Habit_get_or_404 habit_id st;
  name <~ or_raise BadRequestKeyError (form !! "name"%string);
  description <~ or_raise BadRequestKeyError (form !! "description"%string);
  time_of_day <~ or_raise BadRequestKeyError (form !! "time_of_day"%string);
  let habit' :=
    Habit.mk (Habit.id habit) name (Some description)
             (Habit.created_at habit) time_of_day in
  Ok (Redirect_index, mkStore (Habit_update habit' (habits st)) (completions st)).

Definition edit_habit_GET (habit_id : Z) (st : Store) : result (Response * Store) :=
  habit <~ Habit_get_or_404 habit_id st;
  Ok (Render_edit_habit habit, st).

Definition update_time_of_day (habit_id : Z) (form : Form) (st : Store)
  : result (Response * Store) :=
  habit <~ Habit_get_or_404 habit_id st;
  time_of_day <~ or_raise BadRequestKeyError (form !! "time_of_day"%string);
  let habit' :=
    Habit.mk (Habit.id habit) (Habit.name habit) (Habit.description habit)
             (Habit.created_at habit) time_of_day in
  Ok (Redirect_index, mkStore (Habit_update habit' (habits st)) (completions st)).

(** ** Sequences of requests *)

Inductive Op :=
| Add_habit (form : Form)
| Toggle (habit_id day : Z)
| Reset_week
| Delete_habit (habit_id : Z)
| Edit_habit (habit_id : Z) (form : Form)
| Update_time_of_day (habit_id : Z) (form : Form).

(** A request carries the date [date.today()] returns while it runs. *)
Definition handle (today : Z) (op : Op) (st : Store) : result (Response * Store) :=
  match op with
  | Add_habit form => add_habit form today st
  | Toggle habit_id day => toggle_completion habit_id day st
  | Reset_week => reset_week today st
  | Delete_habit habit_id => delete_habit habit_id st
  | Edit_habit habit_id form => edit_habit_POST habit_id form st
  | Update_time_of_day habit_id form => update_time_of_day habit_id form st
  end.

(** The store after a request: the committed one, or the old one when the
    handler raised. *)
Definition step (st : Store) (req : Z * Op) : Store :=
  match handle req.1 req.2 st with
  | Ok (_, st') => st'
  | Raise _ => st
  end.

Definition run (reqs : list (Z * Op)) (st : Store) : Store := foldl step st reqs.

(** ** The index view *)

(** [time_order = {...}]: the display rank of the four time-of-day slots. *)
Definition time_order : gmap pystr Z :=
  list_to_map [(PARTLY_SUNNY, 0); (SUN, 1); (SUNSET, 2); (SHOOTING_STAR, 3)].

(** [time_order.get(tod, 4)]. *)
Definition rank (tod : pystr) : Z := default 4 (time_order !! tod).

(** [<] on the sort keys, tuples [(int, str)]: the first components
    decide unless they are equal, then the strings do. *)
Definition key_ltb (a b : Z * pystr) : bool :=
  (a.1 <? b.1) || ((a.1 =? b.1) && str_ltb a.2 b.2).

(** [list.sort(key=...)] is stable and compares keys with [<] only.  A
    stable sort is determined by its input and the key order, so it is
    modelled by stable insertion: an element goes in front of the first
    element whose key is not below its own. *)
Section StableSort.
Context {A K : Type} (key : A -> K) (ltb : K -> K -> bool).

Fixpoint insert_stable (x : A) (l : list A) : list A :=
  match l with
  | [] => [x]
  | y :: l' => if ltb (key y) (key x) then y :: insert_stable x l' else x :: l
  end.

Definition list_sort (l : list A) : list A := foldr insert_stable [] l.

(** The key of [x] is below the key of [y]. *)
Definition below (x y : A) : Prop := ltb (key x) (key y) = true.

(** No later element has a key below an earlier one. *)
Definition ordered (x y : A) : Prop := ltb (key y) (key x) = false.
End StableSort.

Record IndexView := mkView {
  view_habits : list Habit.t;
  week_dates : list Z;
  completed_map : gmap (Z * Z) bool;
  habit_progress : gmap Z float;
  trend_icon : gmap Z pystr
}.

(** [{(c.habit_id, c.date): True for c in completions}]. *)
Definition build_completed_map (cs : list Completion.t) : gmap (Z * Z) bool :=
  foldl (fun m c => <[(Completion.habit_id c, Completion.date c) := true]> m) ∅ cs.

(** [sum(1 for d in dates if completed_map.get((habit_id, d)))]. *)
Definition completed_days (cm : gmap (Z * Z) bool) (habit_id : Z) (dates : list Z) : Z :=
  py_sum ((fun _ => 1) <$> filter (fun d => cm !! (habit_id, d) = Some true) dates).

(** The two progress loops: [progress[habit.id] = completed_days / 7]. *)
Definition progress_loop (cm : gmap (Z * Z) bool) (dates : list Z) (hs : list Habit.t)
  : gmap Z float :=
  foldl (fun acc habit =>
           <[Habit.id habit := int_truediv (completed_days cm (Habit.id habit) dates) 7]> acc)
        ∅ hs.

Definition trend_of (curr last : float) : pystr :=
  if PrimFloat.ltb last curr then IMPROVED
  else if PrimFloat.ltb curr last then WORSENED
  else FLAT.

(** The trend loop; the two subscripts raise [KeyError] on a missing id. *)
Fixpoint trend_loop (habit_progress last_week_progress : gmap Z float)
    (hs : list Habit.t) (acc : gmap Z pystr) : result (gmap Z pystr) :=
  match hs with
  | [] => Ok acc
  | habit :: rest =>
      curr <~ or_raise KeyError (habit_progress !! Habit.id habit);
      last <~ or_raise KeyError (last_week_progress !! Habit.id habit);
      trend_loop habit_progress last_week_progress rest
                 (<[Habit.id habit := trend_of curr last]> acc)
  end.

Section Index.
(** [str.lower]: Python's Unicode lower-casing, a table of the language. *)
Variable lower : pystr -> pystr.

Definition sort_key (h : Habit.t) : Z * pystr :=
  (rank (Habit.time_of_day h), lower (Habit.name h)).

Definition sort_habits (hs : list Habit.t) : list Habit.t :=
  list_sort sort_key key_ltb hs.

Definition index (today : Z) (st : Store) : result IndexView :=
  let habits := sort_habits (habits st) in
  start <~ start_of_week today;
  week_dates <~ or_raise OverflowError
                 (mapM (fun i => date.add start i) (seqZ 0 7));
  let completed_map := build_completed_map (completions st) in
  let habit_progress := progress_loop completed_map week_dates habits in
  last_week_dates <~ or_raise OverflowError
                      (mapM (fun d => date.sub d 7) week_dates);
  let last_week_progress := progress_loop completed_map last_week_dates habits in
  trend_icon <~ trend_loop habit_progress last_week_progress habits ∅;
  Ok (mkView habits week_dates completed_map habit_progress trend_icon).
End Index.

(** ** The claims read off the specification *)

(** The dates on which the habit has a completion row. *)
Definition completed_dates (cs : list Completion.t) (habit_id : Z) : gset Z :=
  list_to_set (Completion.date <$>
               filter (fun c => Completion.habit_id c = habit_id) cs).

(** The 7-day window that starts at [start]. *)
Definition window (start : Z) : gset Z := list_to_set (seqZ start 7).

(** The reference week starts at the reference date minus its weekday. *)
Definition week_start (today : Z) : Z := today - date.weekday today.

(** The dates of a window each shifted back exactly 7 days. *)
Definition prior_window (W : gset Z) : gset Z := set_map (fun d => d - 7) W.

(** Number of distinct dates of a set of dates with a completion row. *)
Definition distinct_completed (cs : list Completion.t) (habit_id : Z) (W : gset Z) : nat :=
  size (W ∩ completed_dates cs habit_id).

(** [f] is the binary64 value nearest to the rational [a / b] (for
    [0 <= a], [0 < b]): [f] is [m * 2^e] exactly, with a normalised 53-bit
    [m], and [b * f] is within half a unit in the last place of [a]. *)
Definition nearest_quotient (f : float) (a b : Z) : bool :=
  match Prim2SF f with
  | S754_zero false => a =? 0
  | S754_finite false m e =>
      (2 ^ 52 <=? Z.pos m) && (Z.pos m <? 2 ^ 53) && (e <=? 0)
      && (2 * Z.abs (b * Z.pos m - a * 2 ^ (- e)) <=? b)
  | _ => false
  end.

(** ** Store invariants *)

Definition completion_key (c : Completion.t) : Z * Z :=
  (Completion.habit_id c, Completion.date c).

Record Inv (st : Store) : Prop := mkInv {
  inv_habit_pk : NoDup (Habit.id <$> habits st);
  inv_completion_pk : NoDup (Completion.id <$> completions st);
  inv_unique : NoDup (completion_key <$> completions st);
  inv_completed : Forall (fun c => Completion.completed c = true) (completions st);
  inv_fk : Forall (fun c => Completion.habit_id c ∈ (Habit.id <$> habits st))
                  (completions st)
}.

(** ** The admin listing *)

(** [admin_panel]: [Habit.query.order_by(Habit.id).all()] and
    [Completion.query.order_by(Completion.id).all()], the two lists handed
    to the template.  ORDER BY on the key is a sort on the ids. *)
Definition admin_panel (st : Store) : list Habit.t * list Completion.t :=
  (list_sort Habit.id Z.ltb (habits st),
   list_sort Completion.id Z.ltb (completions st)).

(** Keys grow along a table: every row has a key above those before it. *)
Definition keys_increasing (st : Store) : Prop :=
  StronglySorted Z.lt (Habit.id <$> habits st)
  /\ StronglySorted Z.lt (Completion.id <$> completions st)
  /\ Forall (fun i => 1 <= i) (Habit.id <$> habits st)
  /\ Forall (fun i => 1 <= i) (Completion.id <$> completions st).

(** ** The claims as the specification words them, where the code differs *)

(** Two toggle requests for the same (habit, day), one after the other. *)
Definition toggle_twice (habit_id day : Z) (st : Store) : result Store :=
  r1 <~ toggle_completion habit_id day st;
  r2 <~ toggle_completion habit_id day r1.2;
  Ok r2.2.

(** The claim as the specification words it: after two toggles a row for
    (habit, day) exists exactly if one did before, and then with the frozen
    fields it had before. *)
Definition toggle_twice_restores (habit_id day : Z) (st : Store) : Prop :=
  exists st2,
    toggle_twice habit_id day st = Ok st2
    /\ (Completion_filter_by habit_id day (completions st2) <> []
        <-> Completion_filter_by habit_id day (completions st) <> [])
    /\ forall c c2,
         c ∈ Completion_filter_by habit_id day (completions st) ->
         c2 ∈ Completion_filter_by habit_id day (completions st2) ->
         Completion.name c2 = Completion.name c
         /\ Completion.description c2 = Completion.description c
         /\ Completion.time_of_day c2 = Completion.time_of_day c.

(** [x] stands at an earlier position of the list than [y]. *)
Definition precedes {A} (l : list A) (x y : A) : Prop :=
  exists i j : nat, (i < j)%nat /\ l !! i = Some x /\ l !! j = Some y.

(** The claim as the specification words it: in the sorted list one habit
    precedes another exactly if its key is strictly less. *)
Definition precedes_iff_key_lt (lower : pystr -> pystr) (hs : list Habit.t) : Prop :=
  forall h1 h2, h1 ∈ hs -> h2 ∈ hs ->
    (precedes (sort_habits lower hs) h1 h2
     <-> key_ltb (sort_key lower h1) (sort_key lower h2) = true).

(** ** Stores used as concrete inputs

    Ordinal 738000 is Thursday 2021-07-29; its week is 737997..738003. *)

Definition store_read : Store :=
  run [(738000, Add_habit {[ "name"%string := str_of "Read" ]});
       (738000, Toggle 1 738000)] empty_store.

Definition rename_read_more : Z * Op :=
  (738001, Edit_habit 1 {[ "name"%string := str_of "Read More";
                           "description"%string := [];
                           "time_of_day"%string := SUN ]}).

Definition store_two_weeks : Store :=
  run [(738000, Add_habit {[ "name"%string := str_of "A" ]});
       (738000, Add_habit {[ "name"%string := str_of "B" ]});
       (738000, Toggle 1 737998); (738000, Toggle 1 738000); (738000, Toggle 1 738004);
       (738000, Toggle 2 737999); (738000, Toggle 2 738003);
       (738000, Toggle 1 737997); (738000, Toggle 2 738005)] empty_store.

Definition store_two_read : Store :=
  run [(738000, Add_habit {[ "name"%string := str_of "Read" ]});
       (738000, Add_habit {[ "name"%string := str_of "Read" ]})] empty_store.

Definition store_three : Store :=
  run [(738000, Add_habit {[ "name"%string := str_of "Read" ]});
       (738000, Add_habit {[ "name"%string := str_of "apple";
                             "time_of_day"%string := SUN ]});
       (738000, Add_habit {[ "name"%string := str_of "Apple" ]})] empty_store.

(** * Proofs *)

Ltac inv_bind H :=
  repeat match type of H with
  | bind (or_raise _ ?o) _ = Ok _ =>
      let E := fresh "E" in destruct o eqn:E; simpl in H; [|discriminate H]
  | bind (Habit_get_or_404 ?i ?s) _ = Ok _ =>
      let E := fresh "E" in
      unfold Habit_get_or_404 in H; destruct (Habit_get i s) eqn:E;
      simpl in H; [|discriminate H]
  | bind (start_of_week ?t) _ = Ok _ =>
      let E := fresh "E" in
      unfold start_of_week in H; destruct (date.sub t (date.weekday t)) eqn:E;
      simpl in H; [|discriminate H]
  end.

Ltac by_compute :=
  match goal with
  | |- ?P => apply (bool_decide_eq_true_1 P); vm_compute; reflexivity
  end.

(** ** Lists, keys and deletions *)

Lemma next_id_above (ids : list Z) : Forall (fun i => i < next_id ids) ids.
Proof.
  unfold next_id. induction ids as [|i ids IH]; constructor; simpl.
  - lia.
  - eapply Forall_impl; [exact IH|]. simpl. intros; lia.
Qed.

Lemma next_id_fresh (ids : list Z) : next_id ids ∉ ids.
Proof.
  intros Hin. pose proof (next_id_above ids) as H.
  rewrite Forall_forall in H. specialize (H _ Hin). lia.
Qed.

Lemma NoDup_snoc_fresh {A} (l : list A) (x : A) : NoDup l -> x ∉ l -> NoDup (l ++ [x]).
Proof.
  intros Hl Hx. apply NoDup_app. split; [done|]. split.
  - intros y Hy Hy'. apply list_elem_of_singleton in Hy'. by subst.
  - apply NoDup_singleton.
Qed.

Lemma delete_rows_sublist (sel cs : list Completion.t) :
  foldl (fun cs c => Completion_delete c cs) cs sel `sublist_of` cs.
Proof.
  revert cs. induction sel as [|c sel IH]; intros cs; simpl; [done|].
  etrans; [apply IH|]. apply sublist_filter.
Qed.

Lemma delete_rows_filter (sel cs : list Completion.t) :
  foldl (fun cs c => Completion_delete c cs) cs sel
  = filter (fun c => Completion.id c ∉ (Completion.id <$> sel)) cs.
Proof.
  revert cs. induction sel as [|s sel IH]; intros cs; simpl.
  - symmetry. induction cs as [|c cs IHc]; [done|].
    rewrite filter_cons_True; [by f_equal|]. apply not_elem_of_nil.
  - rewrite IH. unfold Completion_delete. rewrite list_filter_filter.
    apply list_filter_iff. intros c. rewrite not_elem_of_cons. tauto.
Qed.

Lemma fmap_sublist {A B} (f : A -> B) (l k : list A) :
  l `sublist_of` k -> (f <$> l) `sublist_of` (f <$> k).
Proof.
  induction 1 as [|x l k _ IH|x l k _ IH]; simpl.
  - apply sublist_nil.
  - by apply sublist_skip.
  - by apply sublist_cons.
Qed.

Lemma NoDup_fmap_sublist {A B} (f : A -> B) (l k : list A) :
  l `sublist_of` k -> NoDup (f <$> k) -> NoDup (f <$> l).
Proof.
  intros Hs Hk. eapply sublist_NoDup; [exact Hk|]. by apply fmap_sublist.
Qed.

Lemma filter_none {A} (P : A -> Prop) `{!forall x, Decision (P x)} (l : list A) :
  (forall x, x ∈ l -> ~ P x) -> filter P l = [].
Proof.
  induction l as [|x l IH]; intros Hn; [done|].
  rewrite filter_cons_False; [|apply Hn; left].
  apply IH. intros y Hy. apply Hn. by right.
Qed.

Lemma Forall_sublist {A} (P : A -> Prop) (l k : list A) :
  l `sublist_of` k -> Forall P k -> Forall P l.
Proof.
  intros Hs Hk. rewrite Forall_forall in *. intros x Hx. apply Hk.
  eapply sublist_subseteq; eauto.
Qed.

Lemma unique_key_filter (cs : list Completion.t) (habit_id day : Z) :
  NoDup (completion_key <$> cs) ->
  (length (Completion_filter_by habit_id day cs) <= 1)%nat.
Proof.
  unfold Completion_filter_by. induction cs as [|c cs IH]; simpl; [lia|].
  rewrite NoDup_cons. intros [Hc Hcs]. rewrite filter_cons.
  destruct (decide _) as [[H1 H2]|_]; [|by apply IH].
  assert (filter (fun c0 => Completion.habit_id c0 = habit_id /\ Completion.date c0 = day) cs
          = []) as ->; [|simpl; lia].
  apply filter_none. intros c' Hc' [H1' H2'].
  apply Hc. apply list_elem_of_fmap. exists c'. split; [|done].
  unfold completion_key. congruence.
Qed.

Lemma Habit_get_Some (habit_id : Z) (st : Store) (h : Habit.t) :
  Habit_get habit_id st = Some h -> h ∈ habits st /\ Habit.id h = habit_id.
Proof.
  unfold Habit_get. intros H. apply find_some in H as [Hin Hid].
  split; [by apply list_elem_of_In|]. by apply bool_decide_eq_true in Hid.
Qed.

Lemma Habit_get_None (habit_id : Z) (st : Store) :
  Habit_get habit_id st = None <-> habit_id ∉ (Habit.id <$> habits st).
Proof.
  unfold Habit_get. split.
  - intros H Hin. apply list_elem_of_fmap in Hin as (h & -> & Hh).
    apply list_elem_of_In in Hh.
    pose proof (find_none _ _ H _ Hh) as Hb. simpl in Hb.
    by apply bool_decide_eq_false in Hb.
  - intros Hn. destruct (find _ _) as [h|] eqn:E; [|done].
    apply find_some in E as [Hin Hid]. apply bool_decide_eq_true in Hid.
    exfalso. apply Hn. apply list_elem_of_fmap. exists h.
    split; [done|]. by apply list_elem_of_In.
Qed.

Lemma Habit_update_ids (h' : Habit.t) (hs : list Habit.t) :
  Habit.id <$> Habit_update h' hs = Habit.id <$> hs.
Proof.
  unfold Habit_update. rewrite <- list_fmap_compose. apply list_fmap_ext.
  intros _ h _. simpl. by case_bool_decide.
Qed.

(** ** Every handler keeps the invariants *)

Lemma Inv_empty : Inv empty_store.
Proof. split; simpl; constructor. Qed.

(** Dropping completion rows, with the habit keys as they were. *)
Lemma Inv_shrink (st : Store) (hs : list Habit.t) (cs : list Completion.t) :
  Inv st ->
  Habit.id <$> hs = Habit.id <$> habits st ->
  cs `sublist_of` completions st ->
  Inv (mkStore hs cs).
Proof.
  intros [Hh Hc Hu Hf Hk] Hids Hs. split; simpl.
  - by rewrite Hids.
  - by eapply NoDup_fmap_sublist.
  - by eapply NoDup_fmap_sublist.
  - by eapply Forall_sublist.
  - rewrite Hids. by eapply Forall_sublist.
Qed.

Lemma Inv_add_habit form today st r st' :
  Inv st -> add_habit form today st = Ok (r, st') -> Inv st'.
Proof.
  intros [Hh Hc Hu Hf Hk] H. unfold add_habit in H. inv_bind H.
  injection H as _ <-. split; simpl; try done.
  - rewrite fmap_app. simpl. apply NoDup_snoc_fresh; [done|apply next_id_fresh].
  - eapply Forall_impl; [exact Hk|]. simpl. intros c Hin.
    rewrite fmap_app. apply elem_of_app. by left.
Qed.

Lemma Inv_toggle_completion habit_id day st r st' :
  Inv st -> toggle_completion habit_id day st = Ok (r, st') -> Inv st'.
Proof.
  intros HI H. unfold toggle_completion in H.
  destruct (Habit_get habit_id st) as [habit|] eqn:Eh; simpl in H; [|discriminate H].
  apply Habit_get_Some in Eh as [Hin Hid].
  destruct (head _) as [existing|] eqn:Ee; injection H as _ <-.
  - eapply Inv_shrink; [exact HI|done|apply sublist_filter].
  - destruct HI as [Hh Hc Hu Hf Hk]. apply head_None in Ee.
    split; simpl; try done.
    + rewrite fmap_app. simpl. apply NoDup_snoc_fresh; [done|apply next_id_fresh].
    + rewrite fmap_app. simpl. apply NoDup_snoc_fresh; [done|].
      intros Hkey. apply list_elem_of_fmap in Hkey as (c & Hc1 & Hc2).
      unfold completion_key in Hc1. simpl in Hc1. injection Hc1 as H1 H2.
      assert (Hc3 : c ∈ Completion_filter_by habit_id day (completions st)).
      { apply list_elem_of_filter. by repeat split. }
      rewrite Ee in Hc3. by apply elem_of_nil in Hc3.
    + apply Forall_app. split; [done|]. by repeat constructor.
    + apply Forall_app. split; [done|]. repeat constructor. simpl.
      apply list_elem_of_fmap. by exists habit.
Qed.

Lemma Inv_reset_week today st r st' :
  Inv st -> reset_week today st = Ok (r, st') -> Inv st'.
Proof.
  intros HI H. unfold reset_week in H. inv_bind H. injection H as _ <-.
  eapply Inv_shrink; [exact HI|done|apply delete_rows_sublist].
Qed.

Lemma Inv_delete_habit habit_id st r st' :
  Inv st -> delete_habit habit_id st = Ok (r, st') -> Inv st'.
Proof.
  intros [Hh Hc Hu Hf Hk] H. unfold delete_habit in H. inv_bind H.
  injection H as _ <-.
  set (cs1 := filter (fun c => Completion.habit_id c <> Habit.id t) (completions st)).
  assert (Hs : foldl (fun cs c => Completion_delete c cs) cs1
                 (filter (fun c => Completion.habit_id c = Habit.id t) cs1)
               `sublist_of` completions st).
  { etrans; [apply delete_rows_sublist|apply sublist_filter]. }
  split; simpl.
  - eapply NoDup_fmap_sublist; [apply sublist_filter|done].
  - by eapply NoDup_fmap_sublist.
  - by eapply NoDup_fmap_sublist.
  - by eapply Forall_sublist.
  - apply Forall_forall. intros c Hc'.
    assert (Hc1 : c ∈ cs1).
    { eapply sublist_subseteq; [apply delete_rows_sublist|exact Hc']. }
    apply list_elem_of_filter in Hc1 as [Hne Hin].
    rewrite Forall_forall in Hk. specialize (Hk _ Hin).
    apply list_elem_of_fmap in Hk as (h & Hid & Hh').
    apply list_elem_of_fmap. exists h. split; [done|].
    apply list_elem_of_filter. split; [congruence|done].
Qed.

Lemma Inv_edit_habit_POST habit_id form st r st' :
  Inv st -> edit_habit_POST habit_id form st = Ok (r, st') -> Inv st'.
Proof.
  intros HI H. unfold edit_habit_POST in H. inv_bind H. injection H as _ <-.
  eapply Inv_shrink; [exact HI|apply Habit_update_ids|done].
Qed.

Lemma Inv_update_time_of_day habit_id form st r st' :
  Inv st -> update_time_of_day habit_id form st = Ok (r, st') -> Inv st'.
Proof.
  intros HI H. unfold update_time_of_day in H. inv_bind H. injection H as _ <-.
  eapply Inv_shrink; [exact HI|apply Habit_update_ids|done].
Qed.

Lemma Inv_step (st : Store) (req : Z * Op) : Inv st -> Inv (step st req).
Proof.
  intros HI. unfold step. destruct (handle _ _ _) as [[r st']|e] eqn:E; [|done].
  destruct req as [today op]. simpl in E.
  destruct op; simpl in E;
    eauto using Inv_add_habit, Inv_toggle_completion, Inv_reset_week,
      Inv_delete_habit, Inv_edit_habit_POST, Inv_update_time_of_day.
Qed.

Lemma Inv_run (reqs : list (Z * Op)) (st : Store) : Inv st -> Inv (run reqs st).
Proof.
  unfold run. revert st. induction reqs as [|req reqs IH]; intros st HI; simpl; [done|].
  apply IH. by apply Inv_step.
Qed.

Lemma NoDup_fmap_inj_on {A B} (f : A -> B) (l : list A) (x y : A) :
  NoDup (f <$> l) -> x ∈ l -> y ∈ l -> f x = f y -> x = y.
Proof.
  induction l as [|a l IH]; simpl; intros Hnd Hx Hy Hf.
  - by apply elem_of_nil in Hx.
  - apply NoDup_cons in Hnd as [Ha Hnd].
    apply elem_of_cons in Hx as [->|Hx]; apply elem_of_cons in Hy as [->|Hy];
      try done.
    + exfalso. apply Ha. rewrite Hf. by apply list_elem_of_fmap_2.
    + exfalso. apply Ha. rewrite <- Hf. by apply list_elem_of_fmap_2.
    + by apply IH.
Qed.

(** ** add_habit *)

(** C4 (the code at the claim's input): [add_habit] with only a name in
    the form inserts a habit whose description is the empty string and
    whose time of day is the handler's own fallback U+26C5 U+FE0F, which is
    not the default U+2600 U+FE0F ("day") that the [Habit] model declares. *)
Theorem C4_add_habit_name_only (n : pystr) (today : Z) (st : Store) :
  exists h,
    add_habit {[ "name"%string := n ]} today st
      = Ok (Redirect_index, mkStore (habits st ++ [h]) (completions st))
    /\ Habit.name h = n
    /\ Habit.description h = Some []
    /\ Habit.time_of_day h = PARTLY_SUNNY
    /\ Habit.time_of_day h <> Habit.default_time_of_day.
Proof.
  eexists. unfold add_habit.
  rewrite lookup_singleton_eq. simpl.
  rewrite !lookup_singleton_ne by done. simpl.
  split; [reflexivity|]. simpl. repeat split. discriminate.
Qed.

(** ** A habit id that no row has *)

Lemma toggle_completion_missing (habit_id day : Z) (st : Store) :
  Habit_get habit_id st = None ->
  toggle_completion habit_id day st = Raise AttributeError.
Proof. intros H. unfold toggle_completion. by rewrite H. Qed.

Lemma get_or_404_handlers_missing (habit_id : Z) (form : Form) (st : Store) :
  Habit_get habit_id st = None ->
  delete_habit habit_id st = Raise NotFound
  /\ edit_habit_GET habit_id st = Raise NotFound
  /\ edit_habit_POST habit_id form st = Raise NotFound
  /\ update_time_of_day habit_id form st = Raise NotFound.
Proof.
  intros H.
  unfold delete_habit, edit_habit_GET, edit_habit_POST, update_time_of_day,
    Habit_get_or_404.
  by rewrite H.
Qed.

(** C5 (the code at the failing input): on a store without habit 1, the
    three handlers that use [get_or_404] answer 404, while toggling a
    completion for habit 1 raises [AttributeError], answered with 500; the
    store is unchanged in every case. *)
Theorem C5_missing_habit_responses :
  let form : Form := {[ "name"%string := str_of "x";
                        "description"%string := [];
                        "time_of_day"%string := SUN ]} in
  Habit_get 1 empty_store = None
  /\ delete_habit 1 empty_store = Raise NotFound
  /\ edit_habit_POST 1 form empty_store = Raise NotFound
  /\ update_time_of_day 1 form empty_store = Raise NotFound
  /\ toggle_completion 1 738000 empty_store = Raise AttributeError
  /\ status_of_exn NotFound = 404
  /\ status_of_exn AttributeError = 500
  /\ step empty_store (738000, Toggle 1 738000) = empty_store.
Proof.
  intros form.
  assert (Hn : Habit_get 1 empty_store = None) by reflexivity.
  destruct (get_or_404_handlers_missing 1 form empty_store Hn) as (H1 & _ & H3 & H4).
  pose proof (toggle_completion_missing 1 738000 empty_store Hn) as H5.
  repeat split; try done.
Qed.

(** ** Invariants of the reachable stores *)

(** C6: after every sequence of add-habit, toggle, reset-week,
    delete-habit, edit-habit and update-time-of-day requests from the empty
    store, at most one completion row exists per (habit_id, date): no two
    rows of the table have the same pair; and every completion row has
    [completed = True]. *)
Theorem C6_one_row_per_pair_completed (reqs : list (Z * Op)) :
  let st := run reqs empty_store in
  NoDup (completion_key <$> completions st)
  /\ (forall (i j : nat) (c1 c2 : Completion.t),
        completions st !! i = Some c1 -> completions st !! j = Some c2 ->
        Completion.habit_id c1 = Completion.habit_id c2 ->
        Completion.date c1 = Completion.date c2 ->
        i = j)
  /\ (forall habit_id day,
        (length (Completion_filter_by habit_id day (completions st)) <= 1)%nat)
  /\ (forall c, c ∈ completions st -> Completion.completed c = true).
Proof.
  intros st. destruct (Inv_run reqs empty_store Inv_empty) as [_ _ Hu Hf _].
  fold st in Hu, Hf. split; [exact Hu|]. split; [|split].
  - intros i j c1 c2 Hi Hj H1 H2.
    eapply NoDup_lookup; [exact Hu| |].
    + rewrite list_lookup_fmap, Hi. reflexivity.
    + rewrite list_lookup_fmap, Hj. simpl. unfold completion_key. by rewrite H1, H2.
  - intros habit_id day. by apply unique_key_filter.
  - intros c Hc. rewrite Forall_forall in Hf. by apply Hf.
Qed.

Lemma C6_one_row_per_pair_witness :
  let reqs := [(738000, Add_habit {[ "name"%string := str_of "A" ]});
               (738000, Toggle 1 738000); (738000, Toggle 1 738000);
               (738000, Toggle 1 738000); (738000, Toggle 1 738001);
               (738000, Toggle 1 738001); (738000, Toggle 1 738001);
               (738000, Toggle 1 738002)] in
  completion_key <$> completions (run reqs empty_store)
  = [(1, 738000); (1, 738001); (1, 738002)]
  /\ Completion.completed <$> completions (run reqs empty_store) = [true; true; true]
  /\ NoDup (completion_key <$> completions (run reqs empty_store)).
Proof.
  intros reqs. split; [reflexivity|]. split; [reflexivity|].
  exact (proj1 (C6_one_row_per_pair_completed reqs)).
Defined.

Lemma delete_habit_Some (habit_id : Z) (st : Store) (h : Habit.t) :
  Habit_get habit_id st = Some h ->
  delete_habit habit_id st
  = Ok (Redirect_index,
        mkStore (filter (fun h' => Habit.id h' <> habit_id) (habits st))
                (filter (fun c => Completion.habit_id c <> habit_id) (completions st))).
Proof.
  intros H. unfold delete_habit, Habit_get_or_404. rewrite H. simpl.
  apply Habit_get_Some in H as [_ ->].
  rewrite (filter_none (fun c => Completion.habit_id c = habit_id)); [done|].
  intros c Hc. by apply list_elem_of_filter in Hc as [Hne _].
Qed.

(** C10: deleting an existing habit removes every completion row with its
    habit_id (and only those) and then the habit row itself; and in every
    store reached from the empty one, each completion row's habit_id is the
    id of a habit row. *)
Theorem C10_delete_habit_no_orphans :
  (forall (st : Store) (habit_id : Z) (h : Habit.t),
      Habit_get habit_id st = Some h ->
      exists st',
        delete_habit habit_id st = Ok (Redirect_index, st')
        /\ completions st'
           = filter (fun c => Completion.habit_id c <> habit_id) (completions st)
        /\ habits st' = filter (fun h' => Habit.id h' <> habit_id) (habits st)
        /\ (forall c, c ∈ completions st' -> Completion.habit_id c <> habit_id)
        /\ Habit_get habit_id st' = None)
  /\ (forall (reqs : list (Z * Op)) (c : Completion.t),
         c ∈ completions (run reqs empty_store) ->
         exists h, h ∈ habits (run reqs empty_store)
                   /\ Habit.id h = Completion.habit_id c).
Proof.
  split.
  - intros st habit_id h Hg. eexists. split; [by eapply delete_habit_Some|].
    simpl. repeat split.
    + intros c Hc. by apply list_elem_of_filter in Hc as [Hne _].
    + apply Habit_get_None. simpl. intros Hin.
      apply list_elem_of_fmap in Hin as (h' & Hid & Hh').
      apply list_elem_of_filter in Hh' as [Hne _]. congruence.
  - intros reqs c Hc.
    destruct (Inv_run reqs empty_store Inv_empty) as [_ _ _ _ Hk].
    rewrite Forall_forall in Hk. specialize (Hk _ Hc).
    apply list_elem_of_fmap in Hk as (h & Hid & Hh). by exists h.
Qed.

Lemma C10_delete_habit_witness :
  exists st',
    delete_habit 1 store_two_weeks = Ok (Redirect_index, st')
    /\ Completion.habit_id <$> completions store_two_weeks = [1; 1; 1; 2; 2; 1; 2]
    /\ Completion.habit_id <$> completions st' = [2; 2; 2]
    /\ Habit.id <$> habits st' = [2].
Proof.
  destruct (proj1 C10_delete_habit_no_orphans store_two_weeks 1
              (Habit.mk 1 (str_of "A") (Some []) 738000 PARTLY_SUNNY))
    as (st' & H1 & H2 & H3 & _).
  - reflexivity.
  - exists st'. split; [exact H1|]. split; [reflexivity|].
    rewrite H2, H3. split; vm_compute; reflexivity.
Defined.

(** ** What a request does to the completion rows *)

(** A request either drops rows, or appends one row under a fresh key. *)
Lemma step_completions (st : Store) (req : Z * Op) :
  completions (step st req) `sublist_of` completions st
  \/ exists c, completions (step st req) = completions st ++ [c]
               /\ Completion.id c ∉ (Completion.id <$> completions st).
Proof.
  destruct req as [today op]. unfold step. simpl.
  destruct (handle today op st) as [[r st']|e] eqn:E; [|by left].
  destruct op; simpl in E.
  - unfold add_habit in E. inv_bind E. injection E as _ <-. by left.
  - unfold toggle_completion in E.
    destruct (Habit_get habit_id st) as [habit|]; simpl in E; [|discriminate E].
    destruct (head _) as [existing|]; injection E as _ <-; simpl.
    + left. apply sublist_filter.
    + right. eexists. split; [reflexivity|]. simpl. apply next_id_fresh.
  - unfold reset_week in E. inv_bind E. injection E as _ <-. left.
    apply delete_rows_sublist.
  - unfold delete_habit in E. inv_bind E. injection E as _ <-. left. simpl.
    etrans; [apply delete_rows_sublist|apply sublist_filter].
  - unfold edit_habit_POST in E. inv_bind E. injection E as _ <-. by left.
  - unfold update_time_of_day in E. inv_bind E. injection E as _ <-. by left.
Qed.

Lemma edit_keeps_completions (st : Store) (today habit_id : Z) (form : Form) :
  completions (step st (today, Edit_habit habit_id form)) = completions st
  /\ completions (step st (today, Update_time_of_day habit_id form)) = completions st.
Proof.
  unfold step. simpl. split.
  - destruct (edit_habit_POST _ _ _) as [[r st']|e] eqn:E; [|done].
    unfold edit_habit_POST in E. inv_bind E. by injection E as _ <-.
  - destruct (update_time_of_day _ _ _) as [[r st']|e] eqn:E; [|done].
    unfold update_time_of_day in E. inv_bind E. by injection E as _ <-.
Qed.

(** C7: no request rewrites a completion row.  In a store whose completion
    ids are a primary key, a row that has the id of an earlier row after a
    request is that row, frozen name, description and time of day included;
    and edit-habit and update-time-of-day leave the completion table as it
    was. *)
Theorem C7_snapshot_never_modified (st : Store) (req : Z * Op) :
  NoDup (Completion.id <$> completions st) ->
  (forall c c',
      c ∈ completions st -> c' ∈ completions (step st req) ->
      Completion.id c' = Completion.id c ->
      c' = c
      /\ Completion.name c' = Completion.name c
      /\ Completion.description c' = Completion.description c
      /\ Completion.time_of_day c' = Completion.time_of_day c)
  /\ (forall habit_id form,
         req.2 = Edit_habit habit_id form \/ req.2 = Update_time_of_day habit_id form ->
         completions (step st req) = completions st).
Proof.
  intros Hpk. split.
  - intros c c' Hc Hc' Hid.
    assert (c' = c) as ->; [|done].
    destruct (step_completions st req) as [Hs|(cn & Heq & Hfresh)].
    + eapply (NoDup_fmap_inj_on Completion.id); eauto.
      eapply sublist_subseteq; eauto.
    + rewrite Heq in Hc'. apply elem_of_app in Hc' as [Hc'|Hc'].
      * eapply (NoDup_fmap_inj_on Completion.id); eauto.
      * apply list_elem_of_singleton in Hc' as ->. exfalso. apply Hfresh.
        rewrite Hid. by apply list_elem_of_fmap_2.
  - intros habit_id form Hreq. destruct req as [today op]. simpl in Hreq.
    destruct (edit_keeps_completions st today habit_id form) as [He Hu].
    by destruct Hreq as [->| ->].
Qed.

Lemma C7_snapshot_witness :
  Habit.name <$> habits (step store_read rename_read_more) = [str_of "Read More"]
  /\ Completion.name <$> completions store_read = [str_of "Read"]
  /\ completions (step store_read rename_read_more) = completions store_read.
Proof.
  split; [reflexivity|]. split; [reflexivity|].
  assert (Hpk : NoDup (Completion.id <$> completions store_read)).
  { apply NoDup_singleton. }
  exact (proj2 (C7_snapshot_never_modified store_read rename_read_more Hpk)
               1 _ (or_introl eq_refl)).
Defined.

(** ** reset_week *)

Lemma weekday_range (d : Z) : 0 <= date.weekday d < 7.
Proof. unfold date.weekday. apply Z.mod_pos_bound. lia. Qed.

Lemma week_start_monday (today : Z) :
  date.weekday (week_start today) = 0
  /\ week_start today <= today <= week_start today + 6.
Proof.
  unfold week_start. pose proof (weekday_range today) as Hr. split; [|lia].
  unfold date.weekday in *.
  replace (today - (today + 6) mod 7 + 6) with ((today + 6) - (today + 6) mod 7) by lia.
  rewrite Zminus_mod, Zmod_mod, Z.sub_diag. reflexivity.
Qed.

Lemma week_start_lower (today : Z) : 1 <= today -> 1 <= week_start today.
Proof.
  intros H. unfold week_start, date.weekday.
  pose proof (Z.mod_pos_bound (today + 6) 7 ltac:(lia)) as Hb.
  destruct (Z.eq_dec today 1) as [->|Hne]; [reflexivity|].
  assert (Hdiv : (today + 6) mod 7 <= today - 1).
  { destruct (Z_lt_le_dec today 8) as [Hlt|Hge].
    - replace (today + 6) with ((today - 1) + 1 * 7) by lia.
      rewrite Z_mod_plus_full, Z.mod_small; lia.
    - lia. }
  lia.
Qed.

Lemma start_of_week_ok (today : Z) :
  1 <= today -> week_start today + 6 <= date.MAXORDINAL ->
  start_of_week today = Ok (week_start today)
  /\ date.add (week_start today) 6 = Some (week_start today + 6).
Proof.
  intros Hlo Hhi. pose proof (week_start_lower today Hlo) as Hs.
  unfold start_of_week, date.sub, date.add, date.valid, date.MINORDINAL in *.
  fold (week_start today).
  replace (today + - date.weekday today) with (week_start today) by (unfold week_start; lia).
  rewrite !andb_true_intro; [done| |]; split; apply Z.leb_le; lia.
Qed.

Lemma filter_iff_in {A} (P Q : A -> Prop)
    `{!forall x, Decision (P x)} `{!forall x, Decision (Q x)} (l : list A) :
  (forall x, x ∈ l -> P x <-> Q x) -> filter P l = filter Q l.
Proof.
  induction l as [|a l IH]; intros Hpq; [done|].
  rewrite !filter_cons.
  rewrite IH by (intros x Hx; apply Hpq; by right).
  pose proof (Hpq a ltac:(by left)) as Ha.
  destruct (decide (P a)), (decide (Q a)); tauto.
Qed.

Lemma delete_selected (P : Completion.t -> Prop) `{!forall c, Decision (P c)}
    (cs : list Completion.t) :
  NoDup (Completion.id <$> cs) ->
  foldl (fun cs c => Completion_delete c cs) cs (filter P cs)
  = filter (fun c => ~ P c) cs.
Proof.
  intros Hpk. rewrite delete_rows_filter.
  apply filter_iff_in. intros c Hc. split.
  - intros Hn HP. apply Hn. apply list_elem_of_fmap_2.
    by apply list_elem_of_filter.
  - intros HnP Hin. apply list_elem_of_fmap in Hin as (c' & Hid & Hc').
    apply list_elem_of_filter in Hc' as [HP Hc'].
    assert (c = c') as -> by (eapply (NoDup_fmap_inj_on Completion.id); eauto).
    done.
Qed.

(** C8: reset-week deletes exactly the completion rows, of every habit,
    whose date lies in the Monday-to-Sunday week that contains the
    reference date, and leaves every other completion row and every habit
    row as it was. *)
Theorem C8_reset_week_exact (today : Z) (st : Store) :
  1 <= today -> week_start today + 6 <= date.MAXORDINAL ->
  NoDup (Completion.id <$> completions st) ->
  exists st',
    reset_week today st = Ok (Redirect_index, st')
    /\ date.weekday (week_start today) = 0
    /\ week_start today <= today <= week_start today + 6
    /\ habits st' = habits st
    /\ completions st'
       = filter (fun c => ~ (week_start today <= Completion.date c <= week_start today + 6))
                (completions st).
Proof.
  intros Hlo Hhi Hpk.
  destruct (start_of_week_ok today Hlo Hhi) as [Hs He].
  destruct (week_start_monday today) as [Hm Hin].
  eexists. unfold reset_week. rewrite Hs. simpl. rewrite He. simpl.
  split; [reflexivity|]. simpl. repeat split; try done; try lia.
  by apply delete_selected.
Qed.

Lemma C8_reset_week_witness :
  exists st',
    reset_week 738000 store_two_weeks = Ok (Redirect_index, st')
    /\ length (completions store_two_weeks) = 7%nat
    /\ week_start 738000 = 737997
    /\ completion_key <$> completions st' = [(1, 738004); (2, 738005)]
    /\ habits st' = habits store_two_weeks.
Proof.
  destruct (C8_reset_week_exact 738000 store_two_weeks) as (st' & H1 & _ & _ & H2 & H3).
  - lia.
  - vm_compute. discriminate.
  - by_compute.
  - exists st'. split; [exact H1|]. split; [reflexivity|]. split; [reflexivity|].
    split; [|exact H2]. rewrite H3. vm_compute. reflexivity.
Defined.

(** ** Toggling twice *)

(** C3, counterexample: habit 1 "Read" was completed on day 738000 and then
    renamed "Read More".  Toggling (1, 738000) twice leaves a row whose
    frozen name is "Read More", not "Read". *)
Lemma C3_toggle_twice_counterexample :
  Completion.name <$> Completion_filter_by 1 738000 (completions (step store_read rename_read_more))
    = [str_of "Read"]
  /\ (exists h, Habit_get 1 (step store_read rename_read_more) = Some h)
  /\ ~ toggle_twice_restores 1 738000 (step store_read rename_read_more).
Proof.
  split; [reflexivity|]. split; [by eexists|].
  intros (st2 & H2 & _ & Hf).
  vm_compute in H2. injection H2 as <-.
  specialize (Hf (Completion.mk 1 1 738000 true (str_of "Read") (Some []) PARTLY_SUNNY)
                 (Completion.mk 1 1 738000 true (str_of "Read More") (Some []) SUN)).
  destruct Hf as [Hn _].
  - vm_compute. left.
  - vm_compute. left.
  - vm_compute in Hn. discriminate Hn.
Qed.

Lemma filter_by_singleton (habit_id day : Z) (cs : list Completion.t) (c : Completion.t) :
  (length (Completion_filter_by habit_id day cs) <= 1)%nat ->
  head (Completion_filter_by habit_id day cs) = Some c ->
  Completion_filter_by habit_id day cs = [c].
Proof.
  intros Hl Hh. destruct (Completion_filter_by habit_id day cs) as [|c' [|c'' l]];
    simpl in *; [discriminate|congruence|lia].
Qed.

Lemma delete_fresh (c : Completion.t) (cs : list Completion.t) :
  Completion.id c ∉ (Completion.id <$> cs) ->
  Completion_delete c (cs ++ [c]) = cs.
Proof.
  intros Hf. unfold Completion_delete. rewrite filter_app.
  rewrite (filter_none _ [c]).
  - rewrite app_nil_r. induction cs as [|a cs IH]; [done|].
    rewrite fmap_cons, not_elem_of_cons in Hf. destruct Hf as [Hne Hf].
    rewrite filter_cons_True by congruence. f_equal. by apply IH.
  - intros x Hx. apply list_elem_of_singleton in Hx as ->. tauto.
Qed.

(** C3 (amended): for a habit in the store and a (habit, day) pair with at
    most one completion row, two toggles succeed, leave the habits alone
    and leave a row for the pair exactly if there was one.  If there was
    none, the completion table is as before.  If there was one, it has been
    replaced by one new row whose frozen name, description and time of day
    are the habit's current ones. *)
Theorem C3_toggle_twice (habit_id day : Z) (st : Store) (h : Habit.t) :
  Habit_get habit_id st = Some h ->
  (length (Completion_filter_by habit_id day (completions st)) <= 1)%nat ->
  exists st2,
    toggle_twice habit_id day st = Ok st2
    /\ habits st2 = habits st
    /\ (Completion_filter_by habit_id day (completions st2) <> []
        <-> Completion_filter_by habit_id day (completions st) <> [])
    /\ (Completion_filter_by habit_id day (completions st) = [] ->
        completions st2 = completions st)
    /\ (forall c, Completion_filter_by habit_id day (completions st) = [c] ->
        exists c2,
          completions st2 = Completion_delete c (completions st) ++ [c2]
          /\ Completion_filter_by habit_id day (completions st2) = [c2]
          /\ Completion.completed c2 = true
          /\ Completion.name c2 = Habit.name h
          /\ Completion.description c2 = Habit.description h
          /\ Completion.time_of_day c2 = Habit.time_of_day h).
Proof.
  intros Hg Hl. unfold toggle_twice, toggle_completion. rewrite Hg. simpl.
  destruct (head (Completion_filter_by habit_id day (completions st)))
    as [existing|] eqn:Ee; simpl.
  - (* a row exists: deleted, then created again *)
    pose proof (filter_by_singleton _ _ _ _ Hl Ee) as Hone.
    unfold Habit_get in *. simpl. rewrite Hg. simpl.
    assert (Hgone : Completion_filter_by habit_id day
                      (Completion_delete existing (completions st)) = []).
    { apply filter_none. intros c Hc Hkey.
      apply list_elem_of_filter in Hc as [Hid Hc].
      assert (Hin : c ∈ Completion_filter_by habit_id day (completions st)).
      { by apply list_elem_of_filter. }
      rewrite Hone in Hin. apply list_elem_of_singleton in Hin as ->. done. }
    rewrite Hgone. simpl. eexists. split; [reflexivity|]. simpl.
    assert (Hnew : forall c2 : Completion.t,
               Completion.habit_id c2 = habit_id -> Completion.date c2 = day ->
               Completion_filter_by habit_id day
                 (Completion_delete existing (completions st) ++ [c2]) = [c2]).
    { intros c2 H1 H2. unfold Completion_filter_by in *. rewrite filter_app, Hgone.
      simpl. by rewrite filter_cons_True. }
    split; [done|]. split.
    { rewrite Hnew by done. rewrite Hone. done. }
    split; [rewrite Hone; discriminate|].
    intros c Hc. rewrite Hone in Hc. injection Hc as <-.
    eexists. split; [reflexivity|]. split; [by apply Hnew|]. done.
  - (* no row: created, then deleted *)
    apply head_None in Ee.
    unfold Habit_get in *. simpl. rewrite Hg. simpl.
    set (new := Completion.mk (next_id (Completion.id <$> completions st)) habit_id day
                              true (Habit.name h) (Habit.description h)
                              (Habit.time_of_day h)).
    assert (Hf : Completion_filter_by habit_id day (completions st ++ [new]) = [new]).
    { unfold Completion_filter_by in *. rewrite filter_app, Ee. simpl.
      by rewrite filter_cons_True. }
    rewrite Hf. simpl. eexists. split; [reflexivity|]. simpl.
    rewrite delete_fresh by apply next_id_fresh.
    split; [done|]. split; [done|]. split; [done|].
    intros c Hc. rewrite Ee in Hc. discriminate Hc.
Qed.

Lemma C3_toggle_twice_witness :
  exists st2,
    toggle_twice 1 738000 (step store_read rename_read_more) = Ok st2
    /\ Completion.name <$> completions st2 = [str_of "Read More"].
Proof.
  destruct (C3_toggle_twice 1 738000 (step store_read rename_read_more)
              (Habit.mk 1 (str_of "Read More") (Some []) 738000 SUN))
    as (st2 & H1 & _ & _ & _ & H5).
  - reflexivity.
  - vm_compute. lia.
  - exists st2. split; [exact H1|].
    destruct (H5 (Completion.mk 1 1 738000 true (str_of "Read") (Some []) PARTLY_SUNNY))
      as (c2 & Hcs & _ & _ & Hn & _); [reflexivity|].
    rewrite Hcs. vm_compute. vm_compute in Hn. by rewrite Hn.
Defined.

(** ** The display order *)

Section StableSortFacts.
Context {A K : Type} (key : A -> K) (ltb : K -> K -> bool).
Hypothesis ltb_asym : forall a b, ltb a b = true -> ltb b a = false.
Hypothesis ltb_between : forall a b c, ltb a b = true -> ltb c b = false -> ltb a c = true.

Lemma insert_stable_perm (x : A) (l : list A) : insert_stable key ltb x l ≡ₚ x :: l.
Proof.
  induction l as [|y l IH]; simpl; [done|].
  destruct (ltb (key y) (key x)); [|done].
  rewrite IH. apply Permutation_swap.
Qed.

Lemma list_sort_perm (l : list A) : list_sort key ltb l ≡ₚ l.
Proof.
  induction l as [|x l IH]; simpl; [done|].
  rewrite insert_stable_perm. by rewrite IH.
Qed.

Lemma insert_stable_sorted (x : A) (l : list A) :
  StronglySorted (ordered key ltb) l -> StronglySorted (ordered key ltb) (insert_stable key ltb x l).
Proof.
  induction 1 as [|y l Hl IH Hy]; simpl.
  - repeat constructor.
  - destruct (ltb (key y) (key x)) eqn:E.
    + constructor; [done|].
      rewrite insert_stable_perm. constructor; [|done].
      unfold ordered. by apply ltb_asym.
    + constructor; [by constructor|].
      constructor; [done|].
      rewrite Forall_forall in Hy |- *. intros z Hz. specialize (Hy z Hz).
      unfold ordered in *.
      destruct (ltb (key z) (key x)) eqn:Ez; [|done].
      by rewrite (ltb_between _ _ _ Ez E) in Hy.
Qed.

Lemma list_sort_sorted (l : list A) : StronglySorted (ordered key ltb) (list_sort key ltb l).
Proof.
  induction l as [|x l IH]; simpl; [constructor|]. by apply insert_stable_sorted.
Qed.
End StableSortFacts.

(** [<] on [str] and on the sort keys is a strict total order. *)
Lemma str_ltb_irrefl (a : pystr) : str_ltb a a = false.
Proof.
  induction a as [|x a IH]; [done|]. simpl.
  rewrite Z.ltb_irrefl, Z.eqb_refl. simpl. done.
Qed.

Lemma str_ltb_trans (a b c : pystr) :
  str_ltb a b = true -> str_ltb b c = true -> str_ltb a c = true.
Proof.
  revert b c. induction a as [|x a IH]; intros [|y b] [|z c]; simpl; try done.
  intros Hab Hbc.
  apply orb_true_iff in Hab as [Hab|Hab]; apply orb_true_iff in Hbc as [Hbc|Hbc];
    rewrite ?andb_true_iff, ?Z.ltb_lt, ?Z.eqb_eq in *; apply orb_true_iff.
  - left. apply Z.ltb_lt. lia.
  - left. apply Z.ltb_lt. lia.
  - left. apply Z.ltb_lt. lia.
  - right. apply andb_true_iff. split; [apply Z.eqb_eq; lia|].
    eapply IH; [apply Hab|apply Hbc].
Qed.

Lemma str_ltb_total (a b : pystr) : str_ltb a b = true \/ a = b \/ str_ltb b a = true.
Proof.
  revert b. induction a as [|x a IH]; intros [|y b]; simpl; auto.
  destruct (Z.lt_total x y) as [Hlt|[->|Hgt]].
  - left. apply orb_true_iff. left. by apply Z.ltb_lt.
  - rewrite Z.ltb_irrefl, Z.eqb_refl. simpl.
    destruct (IH b) as [H|[->|H]]; auto.
  - right. right. apply orb_true_iff. left. by apply Z.ltb_lt.
Qed.

Lemma key_ltb_spec (a b : Z * pystr) :
  key_ltb a b = true <-> a.1 < b.1 \/ (a.1 = b.1 /\ str_ltb a.2 b.2 = true).
Proof.
  unfold key_ltb. rewrite orb_true_iff, andb_true_iff, Z.ltb_lt, Z.eqb_eq. done.
Qed.

Lemma key_ltb_asym (a b : Z * pystr) : key_ltb a b = true -> key_ltb b a = false.
Proof.
  intros H. apply not_true_is_false. intros H'.
  apply key_ltb_spec in H as [H|[H1 H2]]; apply key_ltb_spec in H' as [H'|[H1' H2']];
    try lia.
  pose proof (str_ltb_trans _ _ _ H2 H2') as Hc. by rewrite str_ltb_irrefl in Hc.
Qed.

Lemma key_ltb_between (a b c : Z * pystr) :
  key_ltb a b = true -> key_ltb c b = false -> key_ltb a c = true.
Proof.
  intros Hab Hcb. apply key_ltb_spec.
  apply key_ltb_spec in Hab.
  assert (Hn : ~ (c.1 < b.1 \/ (c.1 = b.1 /\ str_ltb c.2 b.2 = true))).
  { intros Hc. apply key_ltb_spec in Hc. congruence. }
  destruct (Z.lt_total a.1 c.1) as [Hlt|[Heq|Hgt]]; [by left| |].
  - right. split; [done|].
    destruct Hab as [Hab|[Hab1 Hab2]].
    + exfalso. apply Hn. left. lia.
    + destruct (str_ltb_total a.2 c.2) as [H|[H|H]]; [done| |].
      * exfalso. apply Hn. right. split; [lia|]. by rewrite <- H.
      * exfalso. apply Hn. right. split; [lia|]. by eapply str_ltb_trans.
  - exfalso. apply Hn. left. destruct Hab as [Hab|[Hab1 Hab2]]; lia.
Qed.

(** ** The index view: dates, counts and dictionaries *)

Lemma index_dates_in_range (today : Z) :
  8 <= today <= 3652054 -> 8 <= week_start today /\ week_start today + 6 <= 3652054.
Proof.
  intros H. unfold week_start, date.weekday.
  pose proof (Z.div_mod (today + 6) 7 ltac:(lia)) as Hd.
  pose proof (Z.mod_pos_bound (today + 6) 7 ltac:(lia)) as Hb.
  lia.
Qed.

Lemma mapM_total {A B} (f : A -> option B) (g : A -> B) (l : list A) :
  (forall x, x ∈ l -> f x = Some (g x)) -> mapM f l = Some (g <$> l).
Proof.
  induction l as [|a l IH]; intros Hf; [done|]. simpl.
  rewrite (Hf a) by left. simpl.
  rewrite IH by (intros x Hx; apply Hf; by right). done.
Qed.

Lemma date_add_in_range (d k : Z) :
  1 <= d + k <= date.MAXORDINAL -> date.add d k = Some (d + k).
Proof.
  intros H. unfold date.add, date.valid, date.MINORDINAL.
  rewrite andb_true_intro; [done|]. split; apply Z.leb_le; lia.
Qed.

Lemma week_dates_ok (start : Z) :
  1 <= start -> start + 6 <= date.MAXORDINAL ->
  mapM (fun i => date.add start i) (seqZ 0 7) = Some (seqZ start 7).
Proof.
  intros Hlo Hhi. rewrite (mapM_total _ (Z.add start)).
  - rewrite fmap_add_seqZ. by rewrite Z.add_0_r.
  - intros i Hi. apply elem_of_seqZ in Hi. apply date_add_in_range. lia.
Qed.

Lemma last_week_dates_ok (start : Z) :
  8 <= start -> start + 6 <= date.MAXORDINAL ->
  mapM (fun d => date.sub d 7) (seqZ start 7) = Some ((fun d => d - 7) <$> seqZ start 7).
Proof.
  intros Hlo Hhi. apply mapM_total. intros d Hd. apply elem_of_seqZ in Hd.
  unfold date.sub. rewrite date_add_in_range; [done|]. lia.
Qed.

Lemma py_sum_ones {A} (l : list A) : py_sum ((fun _ => 1) <$> l) = Z.of_nat (length l).
Proof.
  unfold py_sum.
  assert (H : forall a, foldl Z.add a ((fun _ : A => 1) <$> l) = a + Z.of_nat (length l)).
  { induction l as [|x l IH]; intros a; simpl; [lia|]. rewrite IH. lia. }
  by rewrite H.
Qed.

Lemma build_completed_map_acc (cs : list Completion.t) (m : gmap (Z * Z) bool) (k : Z * Z) :
  foldl (fun m c => <[(Completion.habit_id c, Completion.date c) := true]> m) m cs !! k
    = Some true
  <-> m !! k = Some true \/ k ∈ (completion_key <$> cs).
Proof.
  revert m. induction cs as [|c cs IH]; intros m; simpl.
  - rewrite elem_of_nil. tauto.
  - rewrite IH, elem_of_cons. fold (completion_key c).
    destruct (decide (completion_key c = k)) as [<-|Hne].
    + rewrite lookup_insert_eq. tauto.
    + rewrite lookup_insert_ne by done. split; [tauto|].
      intros [H|[H|H]]; auto. congruence.
Qed.

Lemma build_completed_map_lookup (cs : list Completion.t) (habit_id d : Z) :
  build_completed_map cs !! (habit_id, d) = Some true
  <-> d ∈ completed_dates cs habit_id.
Proof.
  unfold build_completed_map, completed_dates.
  rewrite build_completed_map_acc, lookup_empty, elem_of_list_to_set.
  rewrite !list_elem_of_fmap. split.
  - intros [H|(c & Hk & Hc)]; [done|]. injection Hk as H1 H2.
    exists c. split; [done|]. by apply list_elem_of_filter.
  - intros (c & -> & Hc). apply list_elem_of_filter in Hc as [<- Hc].
    right. by exists c.
Qed.

Lemma distinct_completed_filter (cs : list Completion.t) (habit_id : Z) (dates : list Z) :
  NoDup dates ->
  distinct_completed cs habit_id (list_to_set dates)
  = length (filter (fun d => d ∈ completed_dates cs habit_id) dates).
Proof.
  intros Hnd. unfold distinct_completed.
  rewrite <- (size_list_to_set (C := gset Z)) by by apply NoDup_filter.
  f_equal. apply set_eq. intros d.
  rewrite elem_of_list_to_set, list_elem_of_filter, elem_of_intersection,
    elem_of_list_to_set. tauto.
Qed.

(** The count of the source is the number of distinct dates of the list
    that have a completion row of the habit. *)
Lemma completed_days_spec (cs : list Completion.t) (habit_id : Z) (dates : list Z) :
  NoDup dates ->
  completed_days (build_completed_map cs) habit_id dates
  = Z.of_nat (distinct_completed cs habit_id (list_to_set dates)).
Proof.
  intros Hnd. unfold completed_days. rewrite py_sum_ones.
  rewrite distinct_completed_filter by done. f_equal. f_equal.
  apply list_filter_iff. intros d. apply build_completed_map_lookup.
Qed.

Lemma distinct_completed_le (cs : list Completion.t) (habit_id : Z) (dates : list Z) :
  NoDup dates ->
  (distinct_completed cs habit_id (list_to_set dates) <= length dates)%nat.
Proof.
  intros Hnd. rewrite distinct_completed_filter by done. apply length_filter.
Qed.

Lemma progress_loop_acc (cm : gmap (Z * Z) bool) (dates : list Z) (hs : list Habit.t)
    (acc : gmap Z float) (k : Z) :
  foldl (fun acc habit =>
           <[Habit.id habit := int_truediv (completed_days cm (Habit.id habit) dates) 7]> acc)
        acc hs !! k
  = if decide (k ∈ (Habit.id <$> hs))
    then Some (int_truediv (completed_days cm k dates) 7)
    else acc !! k.
Proof.
  revert acc. induction hs as [|h hs IH]; intros acc; simpl.
  - done.
  - rewrite IH.
    destruct (decide (k ∈ Habit.id <$> hs)) as [Hin|Hnin].
    + rewrite decide_True; [done|by right].
    + destruct (decide (Habit.id h = k)) as [<-|Hne].
      * rewrite lookup_insert_eq. rewrite decide_True; [done|by left].
      * rewrite lookup_insert_ne by done. rewrite decide_False; [done|].
        rewrite not_elem_of_cons. split; [congruence|done].
Qed.

Lemma progress_loop_lookup cm dates (hs : list Habit.t) (h : Habit.t) :
  h ∈ hs ->
  progress_loop cm dates hs !! Habit.id h
  = Some (int_truediv (completed_days cm (Habit.id h) dates) 7).
Proof.
  intros Hh. unfold progress_loop. rewrite progress_loop_acc.
  rewrite decide_True; [done|]. by apply list_elem_of_fmap_2.
Qed.

Lemma trend_loop_acc (hp lp : gmap Z float) (fc fl : Z -> float) (hs : list Habit.t)
    (acc : gmap Z pystr) :
  (forall h, h ∈ hs -> hp !! Habit.id h = Some (fc (Habit.id h))
                       /\ lp !! Habit.id h = Some (fl (Habit.id h))) ->
  exists m,
    trend_loop hp lp hs acc = Ok m
    /\ forall k, m !! k = if decide (k ∈ (Habit.id <$> hs))
                          then Some (trend_of (fc k) (fl k))
                          else acc !! k.
Proof.
  revert acc. induction hs as [|h hs IH]; intros acc Hh; simpl.
  - exists acc. by split.
  - destruct (Hh h ltac:(left)) as [-> ->]. simpl.
    destruct (IH (<[Habit.id h := trend_of (fc (Habit.id h)) (fl (Habit.id h))]> acc))
      as (m & Hm & Hk).
    { intros h' Hh'. apply Hh. by right. }
    exists m. split; [done|]. intros k. rewrite Hk.
    destruct (decide (k ∈ Habit.id <$> hs)) as [Hin|Hnin].
    + rewrite decide_True; [done|by right].
    + destruct (decide (Habit.id h = k)) as [<-|Hne].
      * rewrite lookup_insert_eq. rewrite decide_True; [done|by left].
      * rewrite lookup_insert_ne by done. rewrite decide_False; [done|].
        rewrite not_elem_of_cons. split; [congruence|done].
Qed.

(** ** Fractions of a week as binary64 floats *)

(** [3 / 7] in Python prints as 0.42857142857142855. *)
Example int_truediv_3_7 : int_truediv 3 7 = 0x1.b6db6db6db6dbp-2%float.
Proof. reflexivity. Qed.

Lemma week_fraction_unit (n : nat) :
  (n <= 7)%nat ->
  PrimFloat.leb 0%float (int_truediv (Z.of_nat n) 7) = true
  /\ PrimFloat.leb (int_truediv (Z.of_nat n) 7) 1%float = true.
Proof.
  intros H. do 8 (destruct n as [|n]; [by vm_compute|]). lia.
Qed.

(** The float the code computes for n sevenths is the binary64 value
    nearest to the rational n / 7. *)
Lemma week_fraction_nearest (n : nat) :
  (n <= 7)%nat -> nearest_quotient (int_truediv (Z.of_nat n) 7) (Z.of_nat n) 7 = true.
Proof.
  intros H. do 8 (destruct n as [|n]; [by vm_compute|]). lia.
Qed.

Lemma week_fraction_ltb (n m : nat) :
  (n <= 7)%nat -> (m <= 7)%nat ->
  PrimFloat.ltb (int_truediv (Z.of_nat n) 7) (int_truediv (Z.of_nat m) 7)
  = bool_decide (n < m)%nat.
Proof.
  intros Hn Hm.
  do 8 (destruct n as [|n];
        [do 8 (destruct m as [|m]; [by vm_compute|]); lia|]).
  lia.
Qed.

Lemma week_fraction_eqb (n m : nat) :
  (n <= 7)%nat -> (m <= 7)%nat ->
  PrimFloat.eqb (int_truediv (Z.of_nat n) 7) (int_truediv (Z.of_nat m) 7)
  = bool_decide (n = m).
Proof.
  intros Hn Hm.
  do 8 (destruct n as [|n];
        [do 8 (destruct m as [|m]; [by vm_compute|]); lia|]).
  lia.
Qed.

Lemma rank_cases :
  rank PARTLY_SUNNY = 0 /\ rank SUN = 1 /\ rank SUNSET = 2 /\ rank SHOOTING_STAR = 3
  /\ forall tod, tod ∉ [PARTLY_SUNNY; SUN; SUNSET; SHOOTING_STAR] -> rank tod = 4.
Proof.
  repeat split; try by vm_compute.
  intros tod Hn. rewrite !not_elem_of_cons in Hn. destruct Hn as (H1 & H2 & H3 & H4 & _).
  unfold rank, time_order. simpl.
  rewrite !lookup_insert_ne by done. by rewrite lookup_empty.
Qed.

Lemma key_ltb_irrefl (k : Z * pystr) : key_ltb k k = false.
Proof.
  unfold key_ltb. by rewrite Z.ltb_irrefl, Z.eqb_refl, str_ltb_irrefl.
Qed.

Section IndexFacts.
Variable lower : pystr -> pystr.

Lemma sort_habits_perm (hs : list Habit.t) : sort_habits lower hs ≡ₚ hs.
Proof. apply list_sort_perm. Qed.

Lemma index_Ok (today : Z) (st : Store) :
  8 <= today <= 3652054 ->
  let start := week_start today in
  let cm := build_completed_map (completions st) in
  exists icons,
    index lower today st
    = Ok (mkView (sort_habits lower (habits st)) (seqZ start 7) cm
                 (progress_loop cm (seqZ start 7) (sort_habits lower (habits st)))
                 icons)
    /\ forall h, h ∈ habits st ->
         icons !! Habit.id h
         = Some (trend_of
                   (int_truediv (completed_days cm (Habit.id h) (seqZ start 7)) 7)
                   (int_truediv (completed_days cm (Habit.id h)
                                   ((fun d => d - 7) <$> seqZ start 7)) 7)).
Proof.
  intros Ht start cm.
  destruct (index_dates_in_range today Ht) as [Hlo Hhi]. fold start in Hlo, Hhi.
  assert (HM : start + 6 <= date.MAXORDINAL) by (unfold date.MAXORDINAL; lia).
  destruct (start_of_week_ok today ltac:(lia) HM) as [Hs _].
  unfold index. rewrite Hs. cbn [bind or_raise]. fold start.
  rewrite week_dates_ok by lia. cbn [bind or_raise].
  rewrite last_week_dates_ok by lia. cbn [bind or_raise]. fold cm.
  set (hs := sort_habits lower (habits st)).
  destruct (trend_loop_acc
              (progress_loop cm (seqZ start 7) hs)
              (progress_loop cm ((fun d => d - 7) <$> seqZ start 7) hs)
              (fun k => int_truediv (completed_days cm k (seqZ start 7)) 7)
              (fun k => int_truediv (completed_days cm k ((fun d => d - 7) <$> seqZ start 7)) 7)
              hs ∅) as (icons & Hi & Hk).
  { intros h Hh. split; by apply progress_loop_lookup. }
  rewrite Hi. cbn [bind]. exists icons. split; [done|].
  intros h Hh. rewrite Hk. rewrite decide_True; [done|].
  apply list_elem_of_fmap_2. unfold hs. by rewrite sort_habits_perm.
Qed.
End IndexFacts.

#[local] Instance sub7_inj : Inj (=) (=) (fun d : Z => d - 7).
Proof. intros x y H. lia. Qed.

Lemma prior_window_list (start : Z) :
  prior_window (window start) = list_to_set ((fun d => d - 7) <$> seqZ start 7).
Proof.
  unfold prior_window, window.
  by rewrite (list_to_set_fmap_L (C := gset Z) (D := gset Z)).
Qed.

(** C1: for every habit of the store, the index view's weekly fraction is
    the number of distinct dates, in the 7-day window that starts at the
    reference date minus its weekday (Monday = 0), on which a completion row
    of the habit exists, divided by 7: the quotient of the two ints as a
    binary64 float, which is the float nearest to the rational n / 7; it
    lies between 0 and 1. *)
Theorem C1_weekly_fraction (lower : pystr -> pystr) (today : Z) (st : Store) (h : Habit.t) :
  h ∈ habits st -> 8 <= today <= 3652054 ->
  exists (v : IndexView) (n : nat) (f : float),
    index lower today st = Ok v
    /\ n = distinct_completed (completions st) (Habit.id h) (window (week_start today))
    /\ habit_progress v !! Habit.id h = Some f
    /\ f = int_truediv (Z.of_nat n) 7
    /\ f = PrimFloat.div (PrimFloat.of_uint63 (Uint63.of_Z (Z.of_nat n))) 7%float
    /\ nearest_quotient f (Z.of_nat n) 7 = true
    /\ (n <= 7)%nat
    /\ PrimFloat.leb 0%float f = true
    /\ PrimFloat.leb f 1%float = true.
Proof.
  intros Hh Ht. destruct (index_Ok lower today st Ht) as (icons & Hi & _).
  eexists. eexists. eexists. split; [exact Hi|]. split; [reflexivity|]. simpl.
  assert (Hn : (distinct_completed (completions st) (Habit.id h)
                  (window (week_start today)) <= 7)%nat).
  { unfold window. etrans; [apply distinct_completed_le, NoDup_seqZ|].
    by rewrite length_seqZ. }
  split.
  { rewrite progress_loop_lookup by by rewrite sort_habits_perm.
    by rewrite completed_days_spec by apply NoDup_seqZ. }
  split; [reflexivity|]. split; [reflexivity|].
  split; [by apply week_fraction_nearest|].
  split; [exact Hn|by apply week_fraction_unit].
Qed.

Lemma C1_weekly_fraction_witness :
  exists v : IndexView,
    index ascii_lower 738000 store_two_weeks = Ok v
    /\ distinct_completed (completions store_two_weeks) 1 (window (week_start 738000))
       = 3%nat
    /\ habit_progress v !! 1 = Some 0x1.b6db6db6db6dbp-2%float
    /\ nearest_quotient 0x1.b6db6db6db6dbp-2%float 3 7 = true.
Proof.
  destruct (C1_weekly_fraction ascii_lower 738000 store_two_weeks
              (Habit.mk 1 (str_of "A") (Some []) 738000 PARTLY_SUNNY))
    as (v & n & f & Hi & Hn & Hp & Hf & _).
  - vm_compute. left.
  - lia.
  - exists v. split; [exact Hi|]. cbn [Habit.id] in Hp, Hn.
    split; [by vm_compute|]. split; [|by vm_compute].
    rewrite Hp, Hf, Hn. vm_compute. reflexivity.
Defined.

(** C2: with curr the weekly fraction over the reference week and prior
    the same count over the reference-week dates each shifted back 7 days,
    the trend icon of a habit is the "improved" one exactly if curr > prior,
    the "worsened" one exactly if curr < prior and the "flat" one exactly if
    curr == prior; it is flat when both counts are 0. *)
Theorem C2_trend (lower : pystr -> pystr) (today : Z) (st : Store) (h : Habit.t) :
  h ∈ habits st -> 8 <= today <= 3652054 ->
  exists (v : IndexView) (t : pystr) (n p : nat),
    index lower today st = Ok v
    /\ trend_icon v !! Habit.id h = Some t
    /\ n = distinct_completed (completions st) (Habit.id h) (window (week_start today))
    /\ p = distinct_completed (completions st) (Habit.id h)
             (prior_window (window (week_start today)))
    /\ habit_progress v !! Habit.id h = Some (int_truediv (Z.of_nat n) 7)
    /\ (t = IMPROVED
        <-> PrimFloat.ltb (int_truediv (Z.of_nat p) 7) (int_truediv (Z.of_nat n) 7) = true)
    /\ (t = WORSENED
        <-> PrimFloat.ltb (int_truediv (Z.of_nat n) 7) (int_truediv (Z.of_nat p) 7) = true)
    /\ (t = FLAT
        <-> PrimFloat.eqb (int_truediv (Z.of_nat n) 7) (int_truediv (Z.of_nat p) 7) = true)
    /\ (t = IMPROVED <-> (p < n)%nat)
    /\ (t = WORSENED <-> (n < p)%nat)
    /\ (t = FLAT <-> n = p)
    /\ (n = 0%nat -> p = 0%nat -> t = FLAT).
Proof.
  intros Hh Ht. destruct (index_Ok lower today st Ht) as (icons & Hi & Hk).
  set (cs := completions st) in *. set (start := week_start today) in *.
  set (n := distinct_completed cs (Habit.id h) (window start)).
  set (p := distinct_completed cs (Habit.id h) (prior_window (window start))).
  assert (Hn : (n <= 7)%nat).
  { unfold n, window. etrans; [apply distinct_completed_le, NoDup_seqZ|].
    by rewrite length_seqZ. }
  assert (Hp : (p <= 7)%nat).
  { unfold p. rewrite prior_window_list.
    etrans; [apply distinct_completed_le, NoDup_fmap_2, NoDup_seqZ; apply _|].
    by rewrite length_fmap, length_seqZ. }
  specialize (Hk h Hh). cbv beta zeta in Hk.
  rewrite completed_days_spec in Hk by apply NoDup_seqZ.
  rewrite completed_days_spec in Hk by (apply NoDup_fmap_2, NoDup_seqZ; apply _).
  rewrite <- prior_window_list in Hk. fold (window start) in Hk. fold n p in Hk.
  eexists. exists (trend_of (int_truediv (Z.of_nat n) 7) (int_truediv (Z.of_nat p) 7)), n, p.
  split; [exact Hi|]. split; [exact Hk|].
  split; [done|]. split; [done|]. split.
  { cbn [habit_progress].
    rewrite progress_loop_lookup by by rewrite sort_habits_perm.
    by rewrite completed_days_spec by apply NoDup_seqZ. }
  unfold trend_of.
  rewrite !week_fraction_ltb, week_fraction_eqb by done.
  destruct (lt_eq_lt_dec n p) as [[Hlt|Heq]|Hgt].
  - rewrite (bool_decide_eq_false_2 (p < n)%nat) by lia.
    rewrite (bool_decide_eq_true_2 (n < p)%nat) by lia.
    rewrite (bool_decide_eq_false_2 (n = p)) by lia.
    repeat split; try done; try lia.
  - rewrite (bool_decide_eq_false_2 (p < n)%nat) by lia.
    rewrite (bool_decide_eq_false_2 (n < p)%nat) by lia.
    rewrite (bool_decide_eq_true_2 (n = p)) by lia.
    repeat split; try done; try lia.
  - rewrite (bool_decide_eq_true_2 (p < n)%nat) by lia.
    rewrite (bool_decide_eq_false_2 (n < p)%nat) by lia.
    rewrite (bool_decide_eq_false_2 (n = p)) by lia.
    repeat split; try done; try lia.
Qed.

Lemma C2_trend_witness :
  exists v : IndexView,
    index ascii_lower 738000 store_two_weeks = Ok v
    /\ trend_icon v !! 1 = Some IMPROVED
    /\ habit_progress v !! 1 = Some (int_truediv 3 7).
Proof.
  destruct (C2_trend ascii_lower 738000 store_two_weeks
              (Habit.mk 1 (str_of "A") (Some []) 738000 PARTLY_SUNNY))
    as (v & t & n & p & Hi & Ht & Hn & Hp & Hh & _ & _ & _ & Himp & _).
  - vm_compute. left.
  - lia.
  - cbn [Habit.id] in Ht, Hn, Hp, Hh.
    exists v. split; [exact Hi|]. split.
    + rewrite Ht. f_equal. apply Himp. rewrite Hn, Hp. vm_compute. lia.
    + rewrite Hh, Hn. vm_compute. reflexivity.
Defined.

(** ** Stability of the sort *)

Lemma precedes_cons {A} (a : A) (l : list A) (x y : A) :
  precedes (a :: l) x y <-> (x = a /\ y ∈ l) \/ precedes l x y.
Proof.
  unfold precedes. split.
  - intros (i & j & Hij & Hi & Hj). destruct j as [|j]; [lia|]. simpl in Hj.
    destruct i as [|i]; simpl in Hi.
    + left. injection Hi as <-. split; [done|]. by eapply list_elem_of_lookup_2.
    + right. exists i, j. split; [lia|done].
  - intros [[-> Hy]|(i & j & Hij & Hi & Hj)].
    + apply list_elem_of_lookup_1 in Hy as [j Hj]. exists 0%nat, (S j).
      split; [lia|done].
    + exists (S i), (S j). split; [lia|done].
Qed.

Lemma precedes_nil {A} (x y : A) : ~ precedes [] x y.
Proof. intros (i & j & _ & Hi & _). by rewrite lookup_nil in Hi. Qed.

Section Stability.
Context {A K : Type} (key : A -> K) (ltb : K -> K -> bool).
Hypothesis ltb_asym : forall a b, ltb a b = true -> ltb b a = false.
Hypothesis ltb_between : forall a b c, ltb a b = true -> ltb c b = false -> ltb a c = true.

Lemma insert_stable_elem (x a : A) (s : list A) :
  x ∈ insert_stable key ltb a s <-> x = a \/ x ∈ s.
Proof. by rewrite insert_stable_perm, elem_of_cons. Qed.

Lemma list_sort_elem (x : A) (l : list A) : x ∈ list_sort key ltb l <-> x ∈ l.
Proof. by rewrite list_sort_perm. Qed.

Lemma insert_stable_precedes (a : A) (s : list A) (x y : A) :
  StronglySorted (ordered key ltb) s ->
  precedes (insert_stable key ltb a s) x y
  <-> precedes s x y \/ (x = a /\ y ∈ s /\ ~ below key ltb y a) \/ (y = a /\ x ∈ s /\ below key ltb x a).
Proof.
  induction 1 as [|b s Hs IH Hb]; simpl.
  - rewrite precedes_cons. pose proof (@precedes_nil A x y) as Hn.
    rewrite !elem_of_nil. tauto.
  - destruct (ltb (key b) (key a)) eqn:E.
    + rewrite !precedes_cons, IH, !elem_of_cons.
      rewrite insert_stable_elem.
      unfold below. split.
      * intros [[-> [->|Hy]]|[H|[(-> & Hy & Hn)|(-> & Hx & Hl)]]]; try tauto.
      * intros [[[-> Hy]|H]|[(-> & [->|Hy] & Hn)|(-> & [->|Hx] & Hl)]]; try tauto.
    + assert (Hge : forall z, z ∈ b :: s -> ~ below key ltb z a).
      { intros z Hz Hl. unfold below in Hl.
        apply elem_of_cons in Hz as [->|Hz]; [congruence|].
        rewrite Forall_forall in Hb. specialize (Hb z Hz). unfold ordered in Hb.
        rewrite (ltb_between _ _ _ Hl E) in Hb. discriminate. }
      rewrite (precedes_cons a). split.
      * intros [[-> Hy]|H]; [|tauto]. right. left. split; [done|]. split; [done|].
        by apply Hge.
      * intros [H|[(-> & Hy & Hn)|(-> & Hx & Hl)]]; [tauto|tauto|].
        by apply Hge in Hl.
Qed.

(** In the sorted list [x] precedes [y] exactly if the key of [x] is
    below that of [y], or [x] preceded [y] before and the key of [y] is
    not below that of [x]. *)
Lemma list_sort_precedes (l : list A) (x y : A) :
  precedes (list_sort key ltb l) x y
  <-> (x ∈ l /\ y ∈ l /\ below key ltb x y) \/ (precedes l x y /\ ~ below key ltb y x).
Proof.
  induction l as [|a l IH]; simpl.
  - pose proof (@precedes_nil A x y) as Hn. rewrite !elem_of_nil. tauto.
  - rewrite insert_stable_precedes by by apply list_sort_sorted.
    rewrite IH, precedes_cons, !elem_of_cons.
    rewrite !list_sort_elem.
    unfold below. split.
    + intros [[H|H]|[(-> & Hy & Hn)|(-> & Hx & Hl)]]; try tauto.
    + intros [([->|Hx] & [->|Hy] & Hl)|[[[-> Hy]|Hp] Hn]]; try tauto.
      * by rewrite (ltb_asym _ _ Hl) in Hl.
      * right. left. split; [done|]. split; [done|].
        by rewrite (ltb_asym _ _ Hl).
Qed.
End Stability.

Lemma key_ltb_total (a b : Z * pystr) :
  key_ltb a b = true \/ a = b \/ key_ltb b a = true.
Proof.
  destruct a as [r1 n1], b as [r2 n2]. rewrite !key_ltb_spec. simpl.
  destruct (Z.lt_total r1 r2) as [H|[->|H]]; [tauto| |tauto].
  destruct (str_ltb_total n1 n2) as [H|[->|H]]; tauto.
Qed.

(** C9, counterexample: two habits both named "Read" with the same time
    of day have equal keys under every lower-casing, yet one of them
    precedes the other in the sorted list. *)
Lemma C9_display_order_counterexample :
  habits store_two_read
  = [Habit.mk 1 (str_of "Read") (Some []) 738000 PARTLY_SUNNY;
     Habit.mk 2 (str_of "Read") (Some []) 738000 PARTLY_SUNNY]
  /\ ~ exists lower, precedes_iff_key_lt lower (habits store_two_read).
Proof.
  split; [reflexivity|]. intros [lower H].
  set (h1 := Habit.mk 1 (str_of "Read") (Some []) 738000 PARTLY_SUNNY).
  set (h2 := Habit.mk 2 (str_of "Read") (Some []) 738000 PARTLY_SUNNY).
  change (habits store_two_read) with [h1; h2] in H.
  destruct (H h1 h2) as [Hk _]; [by left|by right; left|].
  assert (Hs : sort_habits lower [h1; h2] = [h1; h2]).
  { unfold sort_habits, list_sort. cbn [foldr insert_stable].
    change (sort_key lower h2) with (sort_key lower h1).
    by rewrite key_ltb_irrefl. }
  rewrite Hs in Hk.
  assert (Hp : precedes [h1; h2] h1 h2) by (exists 0%nat, 1%nat; split; [lia|done]).
  specialize (Hk Hp).
  change (sort_key lower h2) with (sort_key lower h1) in Hk.
  by rewrite key_ltb_irrefl in Hk.
Qed.

(** C9 (amended): the index view lists the habits of the store, and for
    two of them h1 precedes h2 exactly if (rank(h1.time_of_day),
    lower(h1.name)) is lexicographically less than (rank(h2.time_of_day),
    lower(h2.name)), or the two keys are equal and h1 precedes h2 in the
    order the query returned them; rank maps the four named slots to 0..3
    and every other tag to 4. *)
Theorem C9_display_order (lower : pystr -> pystr) (today : Z) (st : Store)
    (h1 h2 : Habit.t) :
  8 <= today <= 3652054 -> h1 ∈ habits st -> h2 ∈ habits st ->
  exists v : IndexView,
    index lower today st = Ok v
    /\ view_habits v ≡ₚ habits st
    /\ (precedes (view_habits v) h1 h2
        <-> key_ltb (sort_key lower h1) (sort_key lower h2) = true
            \/ (sort_key lower h1 = sort_key lower h2 /\ precedes (habits st) h1 h2))
    /\ sort_key lower h1 = (rank (Habit.time_of_day h1), lower (Habit.name h1))
    /\ rank PARTLY_SUNNY = 0 /\ rank SUN = 1 /\ rank SUNSET = 2 /\ rank SHOOTING_STAR = 3
    /\ (forall tod, tod ∉ [PARTLY_SUNNY; SUN; SUNSET; SHOOTING_STAR] -> rank tod = 4).
Proof.
  intros Ht Hh1 Hh2. destruct (index_Ok lower today st Ht) as (icons & Hi & _).
  eexists. split; [exact Hi|]. cbn [view_habits].
  split; [apply sort_habits_perm|]. split; [|split; [done|apply rank_cases]].
  unfold sort_habits.
  rewrite (list_sort_precedes _ _ key_ltb_asym key_ltb_between). unfold below. split.
  - intros [(_ & _ & Hl)|[Hp Hn]]; [by left|].
    destruct (key_ltb_total (sort_key lower h1) (sort_key lower h2)) as [Hl|[He|Hl]];
      [by left|by right|done].
  - intros [Hl|[He Hp]]; [by left|]. right. split; [done|].
    rewrite He. by rewrite key_ltb_irrefl.
Qed.

Lemma C9_display_order_witness :
  exists v : IndexView,
    index ascii_lower 738000 store_three = Ok v
    /\ precedes (view_habits v)
         (Habit.mk 3 (str_of "Apple") (Some []) 738000 PARTLY_SUNNY)
         (Habit.mk 1 (str_of "Read") (Some []) 738000 PARTLY_SUNNY)
    /\ precedes (view_habits v)
         (Habit.mk 1 (str_of "Read") (Some []) 738000 PARTLY_SUNNY)
         (Habit.mk 2 (str_of "apple") (Some []) 738000 SUN).
Proof.
  destruct (C9_display_order ascii_lower 738000 store_three
              (Habit.mk 3 (str_of "Apple") (Some []) 738000 PARTLY_SUNNY)
              (Habit.mk 1 (str_of "Read") (Some []) 738000 PARTLY_SUNNY))
    as (v & Hi & _ & Hp & _).
  - lia.
  - vm_compute. right. right. left.
  - vm_compute. left.
  - exists v. split; [exact Hi|]. split.
    + apply Hp. left. vm_compute. reflexivity.
    + destruct (index_Ok ascii_lower 738000 store_three ltac:(lia)) as (ic & Hi' & _).
      rewrite Hi' in Hi. injection Hi as <-. cbn [view_habits].
      exists 1%nat, 2%nat. split; [lia|]. split; vm_compute; reflexivity.
Defined.


(** * Further properties of the handlers *)

(** ** One toggle *)

Lemma Completion_delete_iff (c : Completion.t) (cs : list Completion.t) :
  NoDup (Completion.id <$> cs) -> c ∈ cs ->
  forall c', c' ∈ Completion_delete c cs <-> c' ∈ cs /\ c' <> c.
Proof.
  intros Hpk Hc c'. unfold Completion_delete. rewrite list_elem_of_filter. split.
  - intros [Hid Hc']. split; [done|]. by intros ->.
  - intros [Hc' Hne]. split; [|done]. intros Hid. apply Hne.
    eapply (NoDup_fmap_inj_on Completion.id); eauto.
Qed.

(** X1: Toggling a (habit, day) pair that has no row, for a habit of the
    store, appends exactly one row: completed, under a key no row has, with
    the habit's current name, description and time of day frozen in it. *)
Theorem toggle_creates_frozen_row (habit_id day : Z) (st : Store) (h : Habit.t) :
  Habit_get habit_id st = Some h ->
  Completion_filter_by habit_id day (completions st) = [] ->
  exists c,
    toggle_completion habit_id day st
    = Ok (Redirect_index, mkStore (habits st) (completions st ++ [c]))
    /\ (Completion.id c ∉ (Completion.id <$> completions st))
    /\ Completion.habit_id c = habit_id
    /\ Completion.date c = day
    /\ Completion.completed c = true
    /\ Completion.name c = Habit.name h
    /\ Completion.description c = Habit.description h
    /\ Completion.time_of_day c = Habit.time_of_day h
    /\ Completion_filter_by habit_id day (completions st ++ [c]) = [c].
Proof.
  intros Hg He. unfold toggle_completion. rewrite Hg, He. simpl.
  eexists. split; [reflexivity|]. simpl.
  split; [apply next_id_fresh|]. repeat split.
  unfold Completion_filter_by in *. rewrite filter_app, He. simpl.
  by rewrite filter_cons_True.
Qed.

Lemma toggle_creates_frozen_row_witness :
  exists c,
    toggle_completion 1 738001 store_read
    = Ok (Redirect_index, mkStore (habits store_read) (completions store_read ++ [c]))
    /\ Completion.id c = 2
    /\ Completion.name c = str_of "Read".
Proof.
  destruct (toggle_creates_frozen_row 1 738001 store_read
              (Habit.mk 1 (str_of "Read") (Some []) 738000 PARTLY_SUNNY))
    as (c & H1 & _ & _ & _ & _ & Hn & _); [reflexivity|reflexivity|].
  exists c. split; [exact H1|]. split; [|exact Hn].
  vm_compute in H1. by injection H1 as <-.
Defined.

(** X2: Toggling a pair that has rows, for a habit of the store, deletes the
    first of them and nothing else; if it was the only row of the pair, the
    pair has no row afterwards. *)
Theorem toggle_deletes_first_row (habit_id day : Z) (st : Store) (h : Habit.t)
    (c : Completion.t) :
  Habit_get habit_id st = Some h ->
  NoDup (Completion.id <$> completions st) ->
  head (Completion_filter_by habit_id day (completions st)) = Some c ->
  exists cs',
    toggle_completion habit_id day st = Ok (Redirect_index, mkStore (habits st) cs')
    /\ (forall c', c' ∈ cs' <-> c' ∈ completions st /\ c' <> c)
    /\ S (length cs') = length (completions st)
    /\ Completion_filter_by habit_id day cs'
       = tail (Completion_filter_by habit_id day (completions st)).
Proof.
  intros Hg Hpk Hh. unfold toggle_completion. rewrite Hg, Hh. simpl.
  eexists. split; [reflexivity|].
  assert (Hc : c ∈ completions st).
  { apply head_Some_elem_of in Hh. by apply list_elem_of_filter in Hh as [_ Hc]. }
  split; [by apply Completion_delete_iff|].
  apply head_Some in Hh as [rest Hrest].
  assert (Hkey : Completion.habit_id c = habit_id /\ Completion.date c = day).
  { assert (Hin : c ∈ Completion_filter_by habit_id day (completions st))
      by (rewrite Hrest; left).
    by apply list_elem_of_filter in Hin as [Hk _]. }
  revert Hpk Hc rest Hrest. generalize (completions st) as cs.
  induction cs as [|a cs IH]; intros Hpk Hc rest Hrest.
  - by apply elem_of_nil in Hc.
  - pose proof Hpk as Hpk'. simpl in Hpk. apply NoDup_cons in Hpk as [Ha Hpk].
    unfold Completion_filter_by, Completion_delete in *.
    rewrite filter_cons in Hrest.
    destruct (decide (Completion.id a = Completion.id c)) as [Hid|Hid].
    + assert (a = c) as ->.
      { eapply (NoDup_fmap_inj_on Completion.id); eauto. left. }
      rewrite decide_True in Hrest by done. injection Hrest as <-.
      rewrite (filter_cons_False (fun c' => Completion.id c' <> Completion.id c))
        by (intros Hn; by apply Hn).
      assert (Hsame : filter (fun c' => Completion.id c' <> Completion.id c) cs = cs).
      { clear -Ha. induction cs as [|b cs IHc]; [done|].
        rewrite fmap_cons, not_elem_of_cons in Ha. destruct Ha as [Hb Ha].
        rewrite filter_cons_True by congruence. f_equal. by apply IHc. }
      rewrite Hsame. split; [done|].
      by rewrite filter_cons_True.
    + apply elem_of_cons in Hc as [->|Hc]; [done|].
      rewrite (filter_cons_True (fun c' => Completion.id c' <> Completion.id c)) by done.
      destruct (decide (Completion.habit_id a = habit_id /\ Completion.date a = day))
        as [Hka|Hka].
      * injection Hrest as Hac _. by subst a.
      * destruct (IH Hpk Hc rest Hrest) as [Hl Hf].
        simpl. rewrite Hl. split; [done|].
        rewrite !(filter_cons_False _ a) by done. exact Hf.
Qed.

Lemma toggle_deletes_first_row_witness :
  exists cs',
    toggle_completion 1 738000 store_read
    = Ok (Redirect_index, mkStore (habits store_read) cs')
    /\ length (completions store_read) = 1%nat
    /\ cs' = [].
Proof.
  destruct (toggle_deletes_first_row 1 738000 store_read
              (Habit.mk 1 (str_of "Read") (Some []) 738000 PARTLY_SUNNY)
              (Completion.mk 1 1 738000 true (str_of "Read") (Some []) PARTLY_SUNNY))
    as (cs' & H1 & _ & Hl & _).
  - reflexivity.
  - apply NoDup_singleton.
  - reflexivity.
  - exists cs'. split; [exact H1|]. split; [reflexivity|].
    destruct cs'; [done|]. simpl in Hl. change (length (completions store_read)) with 1%nat in Hl.
    lia.
Defined.

(** X3: A toggle request for one (habit, day) pair leaves the rows of every
    other pair, and the habit table, as they were. *)
Theorem toggle_other_pairs_untouched (today habit_id day habit_id' day' : Z) (st : Store) :
  NoDup (Completion.id <$> completions st) ->
  (habit_id', day') <> (habit_id, day) ->
  Completion_filter_by habit_id' day' (completions (step st (today, Toggle habit_id day)))
  = Completion_filter_by habit_id' day' (completions st)
  /\ habits (step st (today, Toggle habit_id day)) = habits st.
Proof.
  intros Hpk Hne. unfold step. simpl. unfold toggle_completion.
  destruct (Habit_get habit_id st) as [h|]; simpl; [|done].
  destruct (head _) as [existing|] eqn:Eh; simpl.
  - split; [|done].
    apply head_Some_elem_of in Eh. apply list_elem_of_filter in Eh as [[Hk1 Hk2] Hin].
    unfold Completion_filter_by, Completion_delete. rewrite list_filter_filter.
    apply filter_iff_in. intros c Hc. split; [tauto|]. intros [H1 H2].
    split; [done|]. intros Hid.
    assert (c = existing) as -> by (eapply (NoDup_fmap_inj_on Completion.id); eauto).
    apply Hne. congruence.
  - split; [|done]. unfold Completion_filter_by. rewrite filter_app.
    rewrite (filter_none _ [_]); [by rewrite app_nil_r|].
    intros c Hc [H1 H2]. apply list_elem_of_singleton in Hc as ->. simpl in *.
    apply Hne. congruence.
Qed.

Lemma toggle_other_pairs_untouched_witness :
  completion_key <$> completions (step store_two_weeks (738000, Toggle 1 738000))
  = [(1, 737998); (1, 738004); (2, 737999); (2, 738003); (1, 737997); (2, 738005)]
  /\ Completion_filter_by 2 738003
       (completions (step store_two_weeks (738000, Toggle 1 738000)))
     = Completion_filter_by 2 738003 (completions store_two_weeks).
Proof.
  split; [reflexivity|].
  apply (toggle_other_pairs_untouched 738000 1 738000 2 738003 store_two_weeks).
  - by_compute.
  - discriminate.
Defined.

(** ** What each request leaves alone *)

(** X4: add-habit, edit-habit and update-time-of-day never change the
    completion table; toggle and reset-week never change the habit table;
    delete-habit only removes rows, from both tables. *)
Theorem step_frame (st : Store) (req : Z * Op) :
  match req.2 with
  | Add_habit _ | Edit_habit _ _ | Update_time_of_day _ _ =>
      completions (step st req) = completions st
  | Toggle _ _ | Reset_week =>
      habits (step st req) = habits st
  | Delete_habit _ =>
      habits (step st req) `sublist_of` habits st
      /\ completions (step st req) `sublist_of` completions st
  end.
Proof.
  destruct req as [today op]. unfold step. simpl.
  destruct (handle today op st) as [[r st']|e] eqn:E; [|by destruct op].
  destruct op; simpl in E.
  - unfold add_habit in E. inv_bind E. by injection E as _ <-.
  - unfold toggle_completion in E.
    destruct (Habit_get habit_id st) as [habit|]; simpl in E; [|discriminate E].
    destruct (head _); by injection E as _ <-.
  - unfold reset_week in E. inv_bind E. by injection E as _ <-.
  - unfold delete_habit in E. inv_bind E. injection E as _ <-. simpl. split.
    + apply sublist_filter.
    + etrans; [apply delete_rows_sublist|apply sublist_filter].
  - unfold edit_habit_POST in E. inv_bind E. by injection E as _ <-.
  - unfold update_time_of_day in E. inv_bind E. by injection E as _ <-.
Qed.

(** ** Habits: insert, update, look up *)

Lemma Habit_get_snoc (habit_id : Z) (hs : list Habit.t) (h : Habit.t)
    (cs cs' : list Completion.t) :
  Habit_get habit_id (mkStore (hs ++ [h]) cs)
  = match Habit_get habit_id (mkStore hs cs') with
    | Some x => Some x
    | None => if bool_decide (Habit.id h = habit_id) then Some h else None
    end.
Proof.
  unfold Habit_get. simpl. induction hs as [|a hs IH]; simpl; [done|].
  by destruct (bool_decide (Habit.id a = habit_id)).
Qed.

Lemma Habit_get_update (habit_id : Z) (h' : Habit.t) (hs : list Habit.t)
    (cs cs' : list Completion.t) :
  Habit_get habit_id (mkStore (Habit_update h' hs) cs)
  = if bool_decide (habit_id = Habit.id h')
    then (fun _ => h') <$> Habit_get habit_id (mkStore hs cs')
    else Habit_get habit_id (mkStore hs cs').
Proof.
  unfold Habit_get, Habit_update. simpl. induction hs as [|a hs IH]; simpl.
  - by case_bool_decide.
  - destruct (bool_decide (Habit.id a = Habit.id h')) eqn:Ea.
    + apply bool_decide_eq_true in Ea.
      destruct (bool_decide (habit_id = Habit.id h')) eqn:Eh.
      * apply bool_decide_eq_true in Eh.
        rewrite !bool_decide_eq_true_2 by congruence. done.
      * apply bool_decide_eq_false in Eh.
        rewrite !bool_decide_eq_false_2 by congruence. exact IH.
    + destruct (bool_decide (Habit.id a = habit_id)) eqn:Eb; [|exact IH].
      apply bool_decide_eq_true in Eb. apply bool_decide_eq_false in Ea.
      rewrite bool_decide_eq_false_2 by congruence. done.
Qed.

(** X5: [add_habit] needs the name field and nothing else: without it the
    request is answered 400; with it the new habit gets a key no habit
    has, the creation date of the request, the form's description and time
    of day (or the empty string and U+26C5 U+FE0F), and is what a later
    lookup of its key returns; every other lookup and the completion table
    are as before. *)
Theorem add_habit_then_get (form : Form) (today : Z) (st : Store) :
  (form !! "name"%string = None ->
   add_habit form today st = Raise BadRequestKeyError)
  /\ (forall n, form !! "name"%string = Some n ->
      exists h,
        add_habit form today st
        = Ok (Redirect_index, mkStore (habits st ++ [h]) (completions st))
        /\ (Habit.id h ∉ (Habit.id <$> habits st))
        /\ h = Habit.mk (Habit.id h) n
                 (Some (default [] (form !! "description"%string))) today
                 (default PARTLY_SUNNY (form !! "time_of_day"%string))
        /\ Habit_get (Habit.id h) (mkStore (habits st ++ [h]) (completions st)) = Some h
        /\ forall habit_id, habit_id <> Habit.id h ->
             Habit_get habit_id (mkStore (habits st ++ [h]) (completions st))
             = Habit_get habit_id st).
Proof.
  unfold add_habit. split.
  - by intros ->.
  - intros n ->. simpl. eexists. split; [reflexivity|]. simpl.
    split; [apply next_id_fresh|]. split; [done|].
    pose proof (next_id_fresh (Habit.id <$> habits st)) as Hf.
    apply Habit_get_None in Hf.
    split.
    + rewrite (Habit_get_snoc _ _ _ _ (completions st)).
      destruct st as [hs cs]. simpl in *. rewrite Hf. simpl.
      by rewrite bool_decide_eq_true_2.
    + intros habit_id Hne. rewrite (Habit_get_snoc _ _ _ _ (completions st)).
      destruct st as [hs cs]. simpl in *.
      destruct (Habit_get habit_id _); [done|].
      by rewrite bool_decide_eq_false_2.
Qed.

(** X6: A successful edit is what a later lookup returns: the habit keeps its
    id and creation date and takes name, description and time of day from
    the form; other habits and the completion table are as before. *)
Theorem edit_habit_then_get (habit_id : Z) (form : Form) (st : Store) (h : Habit.t)
    (n d t : pystr) :
  Habit_get habit_id st = Some h ->
  form !! "name"%string = Some n ->
  form !! "description"%string = Some d ->
  form !! "time_of_day"%string = Some t ->
  exists st',
    edit_habit_POST habit_id form st = Ok (Redirect_index, st')
    /\ Habit_get habit_id st' = Some (Habit.mk habit_id n (Some d) (Habit.created_at h) t)
    /\ (forall habit_id', habit_id' <> habit_id ->
          Habit_get habit_id' st' = Habit_get habit_id' st)
    /\ Habit.id <$> habits st' = Habit.id <$> habits st
    /\ completions st' = completions st.
Proof.
  intros Hg Hn Hd Ht. unfold edit_habit_POST, Habit_get_or_404.
  rewrite Hg, Hn, Hd, Ht. simpl. eexists. split; [reflexivity|].
  destruct (Habit_get_Some _ _ _ Hg) as [_ Hid]. rewrite Hid.
  split; [|split; [|split; [apply Habit_update_ids|done]]].
  - rewrite (Habit_get_update _ _ _ _ (completions st)). simpl.
    rewrite bool_decide_eq_true_2 by done.
    destruct st as [hs cs]. simpl in *. by rewrite Hg.
  - intros habit_id' Hne. rewrite (Habit_get_update _ _ _ _ (completions st)). simpl.
    rewrite bool_decide_eq_false_2 by done. by destruct st.
Qed.

Lemma edit_habit_then_get_witness :
  exists st',
    edit_habit_POST 1 {[ "name"%string := str_of "Read More";
                         "description"%string := [];
                         "time_of_day"%string := SUN ]} store_read
    = Ok (Redirect_index, st')
    /\ Habit_get 1 st' = Some (Habit.mk 1 (str_of "Read More") (Some []) 738000 SUN).
Proof.
  destruct (edit_habit_then_get 1
              {[ "name"%string := str_of "Read More";
                 "description"%string := [];
                 "time_of_day"%string := SUN ]}
              store_read
              (Habit.mk 1 (str_of "Read") (Some []) 738000 PARTLY_SUNNY)
              (str_of "Read More") [] SUN)
    as (st' & H1 & H2 & _); try reflexivity.
  exists st'. split; [exact H1|exact H2].
Defined.

(** X7: edit-habit needs all three form fields and update-time-of-day its
    one: for a habit of the store the request succeeds exactly if they are
    present, and is answered 400 otherwise. *)
Theorem edit_requires_all_fields (habit_id : Z) (form : Form) (st : Store) (h : Habit.t) :
  Habit_get habit_id st = Some h ->
  (edit_habit_POST habit_id form st = Raise BadRequestKeyError
   <-> form !! "name"%string = None \/ form !! "description"%string = None
       \/ form !! "time_of_day"%string = None)
  /\ (update_time_of_day habit_id form st = Raise BadRequestKeyError
      <-> form !! "time_of_day"%string = None)
  /\ status_of_exn BadRequestKeyError = 400.
Proof.
  intros Hg. unfold edit_habit_POST, update_time_of_day, Habit_get_or_404.
  rewrite Hg. simpl.
  destruct (form !! "name"%string), (form !! "description"%string),
    (form !! "time_of_day"%string); simpl; repeat split; intros; try done;
    try tauto; repeat match goal with H : _ \/ _ |- _ => destruct H end; done.
Qed.

Lemma edit_requires_all_fields_witness :
  edit_habit_POST 1 {[ "name"%string := str_of "Read More" ]} store_read
  = Raise BadRequestKeyError.
Proof.
  apply (edit_requires_all_fields 1 _ store_read
           (Habit.mk 1 (str_of "Read") (Some []) 738000 PARTLY_SUNNY)).
  - reflexivity.
  - right. left. reflexivity.
Defined.

(** X8: update-time-of-day changes the time of day of the habit and nothing
    else: name, description and creation date stay, any string is accepted
    as the new tag, and other habits and the completion table are as
    before. *)
Theorem update_time_of_day_then_get (habit_id : Z) (form : Form) (st : Store)
    (h : Habit.t) (t : pystr) :
  Habit_get habit_id st = Some h ->
  form !! "time_of_day"%string = Some t ->
  exists st',
    update_time_of_day habit_id form st = Ok (Redirect_index, st')
    /\ Habit_get habit_id st'
       = Some (Habit.mk habit_id (Habit.name h) (Habit.description h)
                        (Habit.created_at h) t)
    /\ (forall habit_id', habit_id' <> habit_id ->
          Habit_get habit_id' st' = Habit_get habit_id' st)
    /\ completions st' = completions st.
Proof.
  intros Hg Ht. unfold update_time_of_day, Habit_get_or_404.
  rewrite Hg, Ht. simpl. eexists. split; [reflexivity|].
  destruct (Habit_get_Some _ _ _ Hg) as [_ Hid]. rewrite Hid.
  split; [|split; [|done]].
  - rewrite (Habit_get_update _ _ _ _ (completions st)). simpl.
    rewrite bool_decide_eq_true_2 by done.
    destruct st as [hs cs]. simpl in *. by rewrite Hg.
  - intros habit_id' Hne. rewrite (Habit_get_update _ _ _ _ (completions st)). simpl.
    rewrite bool_decide_eq_false_2 by done. by destruct st.
Qed.

Lemma update_time_of_day_then_get_witness :
  exists st',
    update_time_of_day 1 {[ "time_of_day"%string := str_of "zz" ]} store_read
    = Ok (Redirect_index, st')
    /\ Habit_get 1 st'
       = Some (Habit.mk 1 (str_of "Read") (Some []) 738000 (str_of "zz"))
    /\ rank (str_of "zz") = 4.
Proof.
  destruct (update_time_of_day_then_get 1 {[ "time_of_day"%string := str_of "zz" ]}
              store_read
              (Habit.mk 1 (str_of "Read") (Some []) 738000 PARTLY_SUNNY)
              (str_of "zz"))
    as (st' & H1 & H2 & _); try reflexivity.
  exists st'. split; [exact H1|]. split; [exact H2|reflexivity].
Defined.

(** ** The index view as a whole *)

Lemma elem_of_completed_dates (cs : list Completion.t) (habit_id d : Z) :
  d ∈ completed_dates cs habit_id
  <-> exists c, c ∈ cs /\ Completion.habit_id c = habit_id /\ Completion.date c = d.
Proof.
  unfold completed_dates. rewrite elem_of_list_to_set, list_elem_of_fmap. split.
  - intros (c & -> & Hc). apply list_elem_of_filter in Hc as [Hk Hc]. by exists c.
  - intros (c & Hc & Hk & <-). exists c. split; [done|]. by apply list_elem_of_filter.
Qed.

Lemma elem_of_window (start d : Z) : d ∈ window start <-> start <= d < start + 7.
Proof. unfold window. by rewrite elem_of_list_to_set, elem_of_seqZ. Qed.

Lemma sort_habits_ids (lower : pystr -> pystr) (hs : list Habit.t) (k : Z) :
  k ∈ (Habit.id <$> sort_habits lower hs) <-> k ∈ (Habit.id <$> hs).
Proof. by rewrite sort_habits_perm. Qed.

(** What [index] returns on a reference date whose two weeks are in range:
    every field of the view, with the two dictionaries given entry by
    entry. *)
Lemma index_view (lower : pystr -> pystr) (today : Z) (st : Store) :
  8 <= today <= 3652054 ->
  exists v,
    index lower today st = Ok v
    /\ view_habits v = sort_habits lower (habits st)
    /\ week_dates v = seqZ (week_start today) 7
    /\ completed_map v = build_completed_map (completions st)
    /\ (forall k,
          habit_progress v !! k
          = if decide (k ∈ (Habit.id <$> habits st))
            then Some (int_truediv
                         (Z.of_nat (distinct_completed (completions st) k
                                      (window (week_start today)))) 7)
            else None)
    /\ (forall k,
          trend_icon v !! k
          = if decide (k ∈ (Habit.id <$> habits st))
            then Some (trend_of
                         (int_truediv
                            (Z.of_nat (distinct_completed (completions st) k
                                         (window (week_start today)))) 7)
                         (int_truediv
                            (Z.of_nat (distinct_completed (completions st) k
                                         (prior_window (window (week_start today))))) 7))
            else None).
Proof.
  intros Ht. set (start := week_start today). set (cm := build_completed_map (completions st)).
  destruct (index_dates_in_range today Ht) as [Hlo Hhi]. fold start in Hlo, Hhi.
  assert (HM : start + 6 <= date.MAXORDINAL) by (unfold date.MAXORDINAL; lia).
  destruct (start_of_week_ok today ltac:(lia) HM) as [Hs _].
  unfold index. rewrite Hs. cbn [bind or_raise]. fold start.
  rewrite week_dates_ok by lia. cbn [bind or_raise].
  rewrite last_week_dates_ok by lia. cbn [bind or_raise]. fold cm.
  set (hs := sort_habits lower (habits st)).
  destruct (trend_loop_acc
              (progress_loop cm (seqZ start 7) hs)
              (progress_loop cm ((fun d => d - 7) <$> seqZ start 7) hs)
              (fun k => int_truediv (completed_days cm k (seqZ start 7)) 7)
              (fun k => int_truediv (completed_days cm k ((fun d => d - 7) <$> seqZ start 7)) 7)
              hs ∅) as (icons & Hi & Hk).
  { intros h Hh. split; by apply progress_loop_lookup. }
  rewrite Hi. cbn [bind]. eexists. split; [reflexivity|].
  cbn [view_habits week_dates completed_map habit_progress trend_icon].
  split; [done|]. split; [done|]. split; [done|]. split.
  - intros k. unfold progress_loop. rewrite progress_loop_acc, lookup_empty.
    unfold cm. rewrite completed_days_spec by apply NoDup_seqZ.
    apply decide_ext, sort_habits_ids.
  - intros k. rewrite Hk, lookup_empty. unfold cm.
    rewrite completed_days_spec by apply NoDup_seqZ.
    rewrite completed_days_spec by (apply NoDup_fmap_2, NoDup_seqZ; apply _).
    rewrite <- prior_window_list. apply decide_ext, sort_habits_ids.
Qed.

Lemma weekday_offset (start : Z) (i : nat) :
  date.weekday start = 0 -> (i < 7)%nat -> date.weekday (start + Z.of_nat i) = Z.of_nat i.
Proof.
  unfold date.weekday. intros H0 Hi.
  replace (start + Z.of_nat i + 6) with (Z.of_nat i + (start + 6)) by lia.
  rewrite Z.add_mod, H0, Z.add_0_r, Z.mod_mod by lia.
  apply Z.mod_small. lia.
Qed.

(** X9: The week the index view shows: seven consecutive dates, Monday first
    and Sunday last, the reference date among them. *)
Theorem index_week_dates (lower : pystr -> pystr) (today : Z) (st : Store) :
  8 <= today <= 3652054 ->
  exists v,
    index lower today st = Ok v
    /\ length (week_dates v) = 7%nat
    /\ today ∈ week_dates v
    /\ forall (i : nat) (d : Z),
         week_dates v !! i = Some d ->
         d = week_start today + Z.of_nat i
         /\ date.weekday d = Z.of_nat i
         /\ date.valid d = true.
Proof.
  intros Ht. destruct (index_view lower today st Ht) as (v & Hi & _ & Hw & _).
  destruct (index_dates_in_range today Ht) as [Hlo Hhi].
  destruct (week_start_monday today) as [Hm Hin].
  exists v. split; [exact Hi|]. rewrite Hw.
  split; [by rewrite length_seqZ|]. split; [apply elem_of_seqZ; lia|].
  intros i d Hd. apply lookup_seqZ in Hd as [-> Hi7].
  split; [done|]. split; [apply weekday_offset; [done|lia]|].
  unfold date.valid, date.MINORDINAL, date.MAXORDINAL.
  apply andb_true_intro. split; apply Z.leb_le; lia.
Qed.

Lemma index_week_dates_witness :
  exists v,
    index ascii_lower 738000 store_read = Ok v
    /\ length (week_dates v) = 7%nat
    /\ week_dates v !! 6%nat = Some 738003.
Proof.
  destruct (index_week_dates ascii_lower 738000 store_read) as (v & Hi & Hl & _ & Hd);
    [lia|].
  exists v. split; [exact Hi|]. split; [exact Hl|].
  destruct (week_dates v !! 6%nat) as [d|] eqn:E.
  - destruct (Hd 6%nat d E) as [-> _]. reflexivity.
  - apply lookup_ge_None in E. lia.
Defined.

Lemma build_completed_map_values (cs : list Completion.t) (key : Z * Z) :
  build_completed_map cs !! key = None \/ build_completed_map cs !! key = Some true.
Proof.
  unfold build_completed_map.
  assert (Hg : forall m : gmap (Z * Z) bool,
             (m !! key = None \/ m !! key = Some true) ->
             let m' := foldl (fun m c =>
                                <[(Completion.habit_id c, Completion.date c) := true]> m)
                             m cs in
             m' !! key = None \/ m' !! key = Some true).
  { induction cs as [|c cs IH]; intros m Hm; simpl; [done|].
    apply IH.
    destruct (decide ((Completion.habit_id c, Completion.date c) = key)) as [<-|Hne].
    - right. by rewrite lookup_insert_eq.
    - by rewrite lookup_insert_ne. }
  apply Hg. left. apply lookup_empty.
Qed.

(** X10: The two dictionaries of the view have an entry for exactly the ids of
    the habits of the store, so the template's [habit_progress[habit.id]]
    never misses; the completion map holds [True] under exactly the
    (habit_id, date) pairs that have a row, and nothing else. *)
Theorem index_dictionaries (lower : pystr -> pystr) (today : Z) (st : Store) :
  8 <= today <= 3652054 ->
  exists v,
    index lower today st = Ok v
    /\ (forall k, is_Some (habit_progress v !! k) <-> k ∈ (Habit.id <$> habits st))
    /\ (forall k, is_Some (trend_icon v !! k) <-> k ∈ (Habit.id <$> habits st))
    /\ (forall k, trend_icon v !! k = None \/ trend_icon v !! k = Some IMPROVED
                  \/ trend_icon v !! k = Some WORSENED \/ trend_icon v !! k = Some FLAT)
    /\ (forall habit_id d,
          completed_map v !! (habit_id, d) = Some true
          <-> Completion_filter_by habit_id d (completions st) <> [])
    /\ (forall key, completed_map v !! key = None \/ completed_map v !! key = Some true).
Proof.
  intros Ht. destruct (index_view lower today st Ht) as (v & Hi & _ & _ & Hc & Hp & Hk).
  exists v. split; [exact Hi|]. split; [|split; [|split; [|split]]].
  - intros k. rewrite Hp. case_decide; [by split; eauto|].
    split; [by intros []|done].
  - intros k. rewrite Hk. case_decide; [by split; eauto|].
    split; [by intros []|done].
  - intros k. rewrite Hk. case_decide; [|by left]. right. unfold trend_of.
    destruct (PrimFloat.ltb _ _); [by left|].
    destruct (PrimFloat.ltb _ _); [by right; left|by right; right].
  - intros habit_id d. rewrite Hc, build_completed_map_lookup, elem_of_completed_dates.
    split.
    + intros (c & Hin & H1 & H2) He.
      assert (Hf : c ∈ Completion_filter_by habit_id d (completions st))
        by by apply list_elem_of_filter.
      rewrite He in Hf. by apply elem_of_nil in Hf.
    + intros Hne. destruct (Completion_filter_by habit_id d (completions st))
        as [|c l] eqn:E; [done|].
      assert (Hf : c ∈ Completion_filter_by habit_id d (completions st))
        by (rewrite E; left).
      apply list_elem_of_filter in Hf as [[H1 H2] Hin]. by exists c.
  - intros key. rewrite Hc. apply build_completed_map_values.
Qed.


Lemma index_dictionaries_witness :
  exists v,
    index ascii_lower 738000 store_two_weeks = Ok v
    /\ is_Some (habit_progress v !! 2)
    /\ completed_map v !! (2, 738003) = Some true.
Proof.
  destruct (index_dictionaries ascii_lower 738000 store_two_weeks)
    as (v & Hi & Hp & _ & _ & Hc & _); [lia|].
  exists v. split; [exact Hi|]. split.
  - apply Hp. vm_compute. right. left.
  - apply Hc. vm_compute. discriminate.
Defined.

(** ** Reference dates at the ends of the calendar *)

Lemma start_of_week_valid (today : Z) :
  1 <= today <= date.MAXORDINAL -> start_of_week today = Ok (week_start today).
Proof.
  intros H. pose proof (week_start_lower today ltac:(lia)) as Hs.
  destruct (week_start_monday today) as [_ Hin].
  unfold start_of_week, date.sub. rewrite date_add_in_range; [done|].
  unfold week_start in *. lia.
Qed.

Lemma week_start_cases (today : Z) :
  (1 <= today <= 7 -> week_start today = 1)
  /\ (3652055 <= today <= 3652059 -> week_start today = 3652055)
  /\ (1 <= today <= 3652054 -> week_start today + 6 <= 3652054).
Proof.
  unfold week_start, date.weekday.
  pose proof (Z.div_mod (today + 6) 7 ltac:(lia)) as Hd.
  pose proof (Z.mod_pos_bound (today + 6) 7 ltac:(lia)) as Hb.
  repeat split; intros H; lia.
Qed.

(** X11: [index] and [reset_week] fail on a valid reference date only through
    date arithmetic: [index] raises [OverflowError] exactly in the first
    week of year 1 (no week before it) and in the last, cut-off week of year
    9999; [reset_week] only in the latter. *)
Theorem date_range_errors (lower : pystr -> pystr) (today : Z) (st : Store) :
  1 <= today <= date.MAXORDINAL ->
  (index lower today st = Raise OverflowError <-> today <= 7 \/ 3652055 <= today)
  /\ (reset_week today st = Raise OverflowError <-> 3652055 <= today)
  /\ (forall e, index lower today st = Raise e \/ reset_week today st = Raise e ->
                e = OverflowError /\ status_of_exn e = 500).
Proof.
  intros Hv. unfold date.MAXORDINAL in Hv.
  destruct (week_start_cases today) as (Hfirst & Hlast & Hmid).
  pose proof (start_of_week_valid today Hv) as Hs.
  assert (Hidx : today <= 7 \/ 3652055 <= today -> index lower today st = Raise OverflowError).
  { intros [Hlo|Hhi]; unfold index; rewrite Hs; cbn [bind or_raise].
    - rewrite Hfirst by lia. rewrite week_dates_ok by (unfold date.MAXORDINAL; lia).
      cbn [bind or_raise].
      rewrite (proj2 (mapM_None _ _)); [done|].
      apply Exists_exists. exists 1. split; [apply elem_of_seqZ; lia|done].
    - rewrite Hlast by lia.
      rewrite (proj2 (mapM_None _ _)); [done|].
      apply Exists_exists. exists 6. split; [apply elem_of_seqZ; lia|done]. }
  assert (Hrst : 3652055 <= today -> reset_week today st = Raise OverflowError).
  { intros Hhi. unfold reset_week. rewrite Hs. cbn [bind]. by rewrite Hlast by lia. }
  assert (Hidx' : 8 <= today <= 3652054 -> exists v, index lower today st = Ok v).
  { intros Ht. destruct (index_view lower today st Ht) as (v & Hi & _). by exists v. }
  assert (Hrst' : today <= 3652054 -> exists r, reset_week today st = Ok r).
  { intros Ht. unfold reset_week. rewrite Hs. cbn [bind].
    rewrite date_add_in_range by (unfold date.MAXORDINAL;
      pose proof (week_start_lower today ltac:(lia)); specialize (Hmid ltac:(lia)); lia).
    cbn [bind or_raise]. by eexists. }
  split; [|split].
  - split; [|exact Hidx]. intros Hr.
    destruct (Z_le_gt_dec today 7); [by left|].
    destruct (Z_le_gt_dec 3652055 today); [by right|].
    destruct Hidx' as [v Hv']; [lia|]. congruence.
  - split; [|exact Hrst]. intros Hr.
    destruct (Z_le_gt_dec 3652055 today); [done|].
    destruct Hrst' as [r Hr']; [lia|]. congruence.
  - intros e [He|He].
    + destruct (Z_le_gt_dec today 7) as [H7|H7];
        [rewrite Hidx in He by lia; by injection He as <-|].
      destruct (Z_le_gt_dec 3652055 today) as [H9|H9];
        [rewrite Hidx in He by lia; by injection He as <-|].
      destruct Hidx' as [v Hv']; [lia|]. congruence.
    + destruct (Z_le_gt_dec 3652055 today) as [H9|H9];
        [rewrite Hrst in He by lia; by injection He as <-|].
      destruct Hrst' as [r Hr']; [lia|]. congruence.
Qed.

Lemma date_range_errors_witness :
  index ascii_lower 5 store_read = Raise OverflowError
  /\ reset_week 3652057 store_read = Raise OverflowError.
Proof.
  split.
  - apply (date_range_errors ascii_lower 5 store_read); [unfold date.MAXORDINAL; lia|].
    left. lia.
  - apply (date_range_errors ascii_lower 3652057 store_read);
      [unfold date.MAXORDINAL; lia|]. lia.
Defined.

(** ** Requests followed by the index view *)

Lemma week_counts_le (cs : list Completion.t) (k start : Z) :
  (distinct_completed cs k (window start) <= 7)%nat
  /\ (distinct_completed cs k (prior_window (window start)) <= 7)%nat.
Proof.
  split.
  - unfold window. etrans; [apply distinct_completed_le, NoDup_seqZ|].
    by rewrite length_seqZ.
  - rewrite prior_window_list.
    etrans; [apply distinct_completed_le, NoDup_fmap_2, NoDup_seqZ; apply _|].
    by rewrite length_fmap, length_seqZ.
Qed.

Lemma reset_week_Ok (today : Z) (st : Store) :
  1 <= today -> week_start today + 6 <= date.MAXORDINAL ->
  NoDup (Completion.id <$> completions st) ->
  reset_week today st
  = Ok (Redirect_index,
        mkStore (habits st)
          (filter (fun c => ~ (week_start today <= Completion.date c <= week_start today + 6))
                  (completions st))).
Proof.
  intros Hlo Hhi Hpk. destruct (start_of_week_ok today Hlo Hhi) as [Hs He].
  unfold reset_week. rewrite Hs. simpl. rewrite He. simpl.
  by rewrite delete_selected.
Qed.

Lemma distinct_completed_outside (cs : list Completion.t) (k start : Z) :
  distinct_completed
    (filter (fun c => ~ (start <= Completion.date c <= start + 6)) cs) k (window start)
  = 0%nat.
Proof.
  unfold distinct_completed. apply size_empty_iff, elem_of_equiv_empty. intros d Hd.
  apply elem_of_intersection in Hd as [Hw Hc].
  apply elem_of_window in Hw. apply elem_of_completed_dates in Hc as (c & Hin & _ & <-).
  apply list_elem_of_filter in Hin as [Hout _]. lia.
Qed.

(** X12: After [reset_week] the index view of the same day shows progress
    0 / 7 for every habit, and no habit as improved; a second [reset_week]
    changes nothing. *)
Theorem reset_week_then_index (lower : pystr -> pystr) (today : Z) (st : Store) :
  8 <= today <= 3652054 ->
  NoDup (Completion.id <$> completions st) ->
  exists st' v,
    reset_week today st = Ok (Redirect_index, st')
    /\ index lower today st' = Ok v
    /\ (forall h, h ∈ habits st ->
          habit_progress v !! Habit.id h = Some (int_truediv 0 7)
          /\ (trend_icon v !! Habit.id h = Some FLAT
              \/ trend_icon v !! Habit.id h = Some WORSENED))
    /\ reset_week today st' = Ok (Redirect_index, st').
Proof.
  intros Ht Hpk. destruct (index_dates_in_range today Ht) as [Hlo Hhi].
  assert (HM : week_start today + 6 <= date.MAXORDINAL) by (unfold date.MAXORDINAL; lia).
  eexists. 
  destruct (index_view lower today
              (mkStore (habits st)
                 (filter (fun c => ~ (week_start today <= Completion.date c
                                      <= week_start today + 6)) (completions st))) Ht)
    as (v & Hi & _ & _ & _ & Hp & Hk).
  exists v. split; [apply reset_week_Ok; [lia|exact HM|exact Hpk]|].
  split; [exact Hi|]. split.
  - intros h Hh. cbn [habits completions] in Hp, Hk.
    rewrite Hp, Hk. rewrite !decide_True by by apply list_elem_of_fmap_2.
    rewrite distinct_completed_outside. split; [done|].
    unfold trend_of.
    destruct (week_counts_le
                (filter (fun c => ~ (week_start today <= Completion.date c
                                     <= week_start today + 6)) (completions st))
                (Habit.id h) (week_start today)) as [_ Hp7].
    rewrite (week_fraction_ltb _ 0) by (done || lia).
    rewrite bool_decide_eq_false_2 by lia.
    destruct (PrimFloat.ltb _ _); [by right|by left].
  - rewrite reset_week_Ok;
      [|lia|exact HM
       |cbn [completions]; eapply NoDup_fmap_sublist; [apply sublist_filter|done]].
    cbn [habits completions]. do 3 f_equal.
    rewrite list_filter_filter. apply list_filter_iff. tauto.
Qed.

Lemma reset_week_then_index_witness :
  exists st' v,
    reset_week 738000 store_two_weeks = Ok (Redirect_index, st')
    /\ index ascii_lower 738000 st' = Ok v
    /\ habit_progress v !! 1 = Some (int_truediv 0 7).
Proof.
  destruct (reset_week_then_index ascii_lower 738000 store_two_weeks)
    as (st' & v & H1 & H2 & H3 & _).
  - lia.
  - by_compute.
  - exists st', v. split; [exact H1|]. split; [exact H2|].
    apply (H3 (Habit.mk 1 (str_of "A") (Some []) 738000 PARTLY_SUNNY)).
    vm_compute. left.
Defined.

Lemma completed_dates_snoc (cs : list Completion.t) (c : Completion.t) (k : Z) :
  completed_dates (cs ++ [c]) k
  = if decide (Completion.habit_id c = k)
    then completed_dates cs k ∪ {[Completion.date c]}
    else completed_dates cs k.
Proof.
  apply set_eq. intros d. rewrite elem_of_completed_dates.
  setoid_rewrite elem_of_app. setoid_rewrite list_elem_of_singleton.
  case_decide as Hk.
  - rewrite elem_of_union, elem_of_singleton, elem_of_completed_dates. split.
    + intros (c' & [Hc| ->] & H1 & H2); [left; by exists c'|by right].
    + intros [(c' & Hc & H1 & H2)| ->]; [exists c'; tauto|exists c; tauto].
  - rewrite elem_of_completed_dates. split.
    + intros (c' & [Hc| ->] & H1 & H2); [by exists c'|done].
    + intros (c' & Hc & H1 & H2). exists c'. tauto.
Qed.

Lemma completed_dates_other_habit (cs : list Completion.t) (habit_id k : Z) :
  k <> habit_id ->
  completed_dates (filter (fun c => Completion.habit_id c <> habit_id) cs) k
  = completed_dates cs k.
Proof.
  intros Hne. apply set_eq. intros d. rewrite !elem_of_completed_dates. split.
  - intros (c & Hc & H1 & H2). apply list_elem_of_filter in Hc as [_ Hc]. by exists c.
  - intros (c & Hc & H1 & H2). exists c. split; [|done].
    apply list_elem_of_filter. split; [congruence|done].
Qed.

(** X13: Completing a day of the reference week for a habit of the store, on
    which it had no row, raises that habit's count of completed days of the
    week by exactly one, from n to n + 1, and with it the weekly progress
    from the float nearest n / 7 to the strictly greater float nearest
    (n + 1) / 7; every other habit's progress and trend stay as they
    were. *)
Theorem toggle_then_index (lower : pystr -> pystr) (today day : Z) (st : Store)
    (h : Habit.t) :
  8 <= today <= 3652054 ->
  h ∈ habits st ->
  week_start today <= day <= week_start today + 6 ->
  Completion_filter_by (Habit.id h) day (completions st) = [] ->
  exists st' v v' (n : nat),
    toggle_completion (Habit.id h) day st = Ok (Redirect_index, st')
    /\ index lower today st = Ok v
    /\ index lower today st' = Ok v'
    /\ (n < 7)%nat
    /\ habit_progress v !! Habit.id h = Some (int_truediv (Z.of_nat n) 7)
    /\ habit_progress v' !! Habit.id h = Some (int_truediv (Z.of_nat (S n)) 7)
    /\ (forall h', h' ∈ habits st -> Habit.id h' <> Habit.id h ->
          habit_progress v' !! Habit.id h' = habit_progress v !! Habit.id h'
          /\ trend_icon v' !! Habit.id h' = trend_icon v !! Habit.id h')
    /\ n = distinct_completed (completions st) (Habit.id h) (window (week_start today))
    /\ S n = distinct_completed (completions st') (Habit.id h) (window (week_start today))
    /\ nearest_quotient (int_truediv (Z.of_nat n) 7) (Z.of_nat n) 7 = true
    /\ nearest_quotient (int_truediv (Z.of_nat (S n)) 7) (Z.of_nat (S n)) 7 = true
    /\ PrimFloat.ltb (int_truediv (Z.of_nat n) 7) (int_truediv (Z.of_nat (S n)) 7) = true.
Proof.
  intros Ht Hh Hday He.
  destruct (Habit_get (Habit.id h) st) as [h0|] eqn:Hg.
  2:{ apply Habit_get_None in Hg. exfalso. apply Hg. by apply list_elem_of_fmap_2. }
  set (c := Completion.mk (next_id (Completion.id <$> completions st)) (Habit.id h) day
              true (Habit.name h0) (Habit.description h0) (Habit.time_of_day h0)).
  destruct (index_view lower today st Ht) as (v & Hi & _ & _ & _ & Hp & Hk).
  destruct (index_view lower today (mkStore (habits st) (completions st ++ [c])) Ht)
    as (v' & Hi' & _ & _ & _ & Hp' & Hk').
  cbn [habits completions] in Hp', Hk'.
  set (W := window (week_start today)) in *.
  assert (Hnew : distinct_completed (completions st ++ [c]) (Habit.id h) W
                 = S (distinct_completed (completions st) (Habit.id h) W)).
  { unfold distinct_completed. rewrite completed_dates_snoc.
    rewrite decide_True by done. cbn [Completion.date c].
    assert (Hd : day ∉ completed_dates (completions st) (Habit.id h)).
    { intros Hin. apply elem_of_completed_dates in Hin as (c' & Hc' & H1 & H2).
      assert (Hf : c' ∈ Completion_filter_by (Habit.id h) day (completions st))
        by by apply list_elem_of_filter.
      rewrite He in Hf. by apply elem_of_nil in Hf. }
    assert (Hw : day ∈ W) by (apply elem_of_window; lia).
    assert (Hset : W ∩ (completed_dates (completions st) (Habit.id h) ∪ {[day]})
                   = (W ∩ completed_dates (completions st) (Habit.id h)) ∪ {[day]}).
    { apply set_eq. intros d.
      rewrite elem_of_intersection, !elem_of_union, elem_of_intersection,
        elem_of_singleton.
      split; [tauto|]. intros [Hd'| ->]; tauto. }
    rewrite Hset, size_union, size_singleton; [lia|].
    apply disjoint_singleton_r. rewrite elem_of_intersection. tauto. }
  exists (mkStore (habits st) (completions st ++ [c])), v, v',
    (distinct_completed (completions st) (Habit.id h) W).
  split.
  { unfold toggle_completion. rewrite Hg, He. reflexivity. }
  split; [exact Hi|]. split; [exact Hi'|].
  split.
  { destruct (week_counts_le (completions st ++ [c]) (Habit.id h) (week_start today))
      as [H7 _]. fold W in H7. lia. }
  assert (H7 : (S (distinct_completed (completions st) (Habit.id h) W) <= 7)%nat).
  { destruct (week_counts_le (completions st ++ [c]) (Habit.id h) (week_start today))
      as [H7 _]. fold W in H7. lia. }
  split; [|split; [|split; [|split; [|split; [|split; [|split]]]]]].
  - rewrite Hp. by rewrite decide_True by by apply list_elem_of_fmap_2.
  - rewrite Hp'. rewrite decide_True by by apply list_elem_of_fmap_2. by rewrite Hnew.
  - intros h' Hh' Hne. rewrite Hp, Hp', Hk, Hk'.
    rewrite !decide_True by by apply list_elem_of_fmap_2.
    unfold distinct_completed. rewrite completed_dates_snoc.
    rewrite decide_False by (intros Heq; apply Hne; symmetry; exact Heq). done.
  - reflexivity.
  - cbn [completions]. by rewrite Hnew.
  - apply week_fraction_nearest. lia.
  - by apply week_fraction_nearest.
  - rewrite week_fraction_ltb by lia. apply bool_decide_eq_true_2. lia.
Qed.

Lemma toggle_then_index_witness :
  exists st' v v',
    toggle_completion 1 738002 store_two_weeks = Ok (Redirect_index, st')
    /\ index ascii_lower 738000 store_two_weeks = Ok v
    /\ index ascii_lower 738000 st' = Ok v'
    /\ distinct_completed (completions store_two_weeks) 1 (window (week_start 738000))
       = 3%nat
    /\ distinct_completed (completions st') 1 (window (week_start 738000)) = 4%nat
    /\ habit_progress v !! 1 = Some 0x1.b6db6db6db6dbp-2%float
    /\ habit_progress v' !! 1 = Some 0x1.2492492492492p-1%float.
Proof.
  destruct (toggle_then_index ascii_lower 738000 738002 store_two_weeks
              (Habit.mk 1 (str_of "A") (Some []) 738000 PARTLY_SUNNY))
    as (st' & v & v' & n & H1 & H2 & H3 & _ & H5 & H6 & _ & Hn & Hn' & _).
  - lia.
  - vm_compute. left.
  - vm_compute. split; discriminate.
  - reflexivity.
  - cbn [Habit.id] in *.
    assert (Hn3 : n = 3%nat) by (rewrite Hn; by vm_compute). subst n.
    exists st', v, v'.
    split; [exact H1|]. split; [exact H2|]. split; [exact H3|].
    split; [by vm_compute|]. split; [by rewrite <- Hn'|].
    split; [rewrite H5|rewrite H6]; vm_compute; reflexivity.
Defined.

(** X14: Deleting a habit removes it from the index view and from both
    dictionaries, keeps every other habit in the view, and changes no other
    habit's progress or trend. *)
Theorem delete_habit_then_index (lower : pystr -> pystr) (today habit_id : Z)
    (st : Store) (h : Habit.t) :
  8 <= today <= 3652054 ->
  Habit_get habit_id st = Some h ->
  exists st' v v',
    delete_habit habit_id st = Ok (Redirect_index, st')
    /\ index lower today st = Ok v
    /\ index lower today st' = Ok v'
    /\ habit_progress v' !! habit_id = None
    /\ trend_icon v' !! habit_id = None
    /\ (forall x, x ∈ view_habits v' <-> x ∈ view_habits v /\ Habit.id x <> habit_id)
    /\ (forall k, k <> habit_id ->
          habit_progress v' !! k = habit_progress v !! k
          /\ trend_icon v' !! k = trend_icon v !! k).
Proof.
  intros Ht Hg. rewrite (delete_habit_Some _ _ _ Hg).
  destruct (index_view lower today st Ht) as (v & Hi & Hv & _ & _ & Hp & Hk).
  destruct (index_view lower today
              (mkStore (filter (fun h' => Habit.id h' <> habit_id) (habits st))
                 (filter (fun c => Completion.habit_id c <> habit_id) (completions st))) Ht)
    as (v' & Hi' & Hv' & _ & _ & Hp' & Hk').
  cbn [habits completions] in Hv', Hp', Hk'.
  assert (Hids : forall k, k ∈ (Habit.id <$> filter (fun h' => Habit.id h' <> habit_id)
                                                   (habits st))
                          <-> k ∈ (Habit.id <$> habits st) /\ k <> habit_id).
  { intros k. rewrite !list_elem_of_fmap. split.
    - intros (x & -> & Hx). apply list_elem_of_filter in Hx as [Hne Hx].
      split; [by exists x|done].
    - intros [(x & -> & Hx) Hne]. exists x. split; [done|].
      by apply list_elem_of_filter. }
  eexists _, v, v'. split; [reflexivity|]. split; [exact Hi|]. split; [exact Hi'|].
  split; [|split; [|split]].
  - rewrite Hp'. rewrite decide_False; [done|]. rewrite Hids. tauto.
  - rewrite Hk'. rewrite decide_False; [done|]. rewrite Hids. tauto.
  - intros x. rewrite Hv, Hv'. rewrite !sort_habits_perm, list_elem_of_filter. tauto.
  - intros k Hne. rewrite Hp, Hp', Hk, Hk'. unfold distinct_completed.
    rewrite completed_dates_other_habit by done.
    split; apply decide_ext; rewrite Hids; tauto.
Qed.

Lemma delete_habit_then_index_witness :
  exists st' v v',
    delete_habit 1 store_two_weeks = Ok (Redirect_index, st')
    /\ index ascii_lower 738000 store_two_weeks = Ok v
    /\ index ascii_lower 738000 st' = Ok v'
    /\ habit_progress v' !! 1 = None
    /\ habit_progress v' !! 2 = habit_progress v !! 2.
Proof.
  destruct (delete_habit_then_index ascii_lower 738000 1 store_two_weeks
              (Habit.mk 1 (str_of "A") (Some []) 738000 PARTLY_SUNNY))
    as (st' & v & v' & H1 & H2 & H3 & H4 & _ & _ & H7).
  - lia.
  - reflexivity.
  - exists st', v, v'. split; [exact H1|]. split; [exact H2|]. split; [exact H3|].
    split; [exact H4|]. apply H7. lia.
Defined.

(** ** The admin listing *)

Lemma StronglySorted_sublist {A} (R : A -> A -> Prop) (l k : list A) :
  l `sublist_of` k -> StronglySorted R k -> StronglySorted R l.
Proof.
  induction 1 as [|x l k Hs IH|x l k Hs IH]; intros Hk.
  - constructor.
  - apply StronglySorted_inv in Hk as [Hk Hx]. constructor; [by apply IH|].
    eapply Forall_sublist; eauto.
  - apply StronglySorted_inv in Hk as [Hk _]. by apply IH.
Qed.

Lemma list_sort_increasing {A} (key : A -> Z) (l : list A) :
  StronglySorted Z.lt (key <$> l) -> list_sort key Z.ltb l = l.
Proof.
  induction l as [|x l IH]; simpl; intros Hs; [done|].
  apply StronglySorted_inv in Hs as [Hs Hx]. rewrite IH by done.
  destruct l as [|y l]; simpl; [done|].
  apply Forall_inv in Hx. by rewrite (proj2 (Z.ltb_ge _ _)) by lia.
Qed.

Lemma keys_snoc (ids : list Z) :
  StronglySorted Z.lt ids -> Forall (fun i => 1 <= i) ids ->
  StronglySorted Z.lt (ids ++ [next_id ids])
  /\ Forall (fun i => 1 <= i) (ids ++ [next_id ids]).
Proof.
  intros Hs Hp. split.
  - apply StronglySorted_app_2; [|done|repeat constructor].
    intros x y Hx Hy. apply list_elem_of_singleton in Hy as ->.
    pose proof (next_id_above ids) as Ha. rewrite Forall_forall in Ha. by apply Ha.
  - apply Forall_app. split; [done|]. repeat constructor.
    unfold next_id. clear. induction ids as [|i ids IH]; simpl; lia.
Qed.

Lemma keys_increasing_step (st : Store) (req : Z * Op) :
  keys_increasing st -> keys_increasing (step st req).
Proof.
  intros (Hh & Hc & Hhp & Hcp).
  assert (Hsub : forall hs cs,
             (Habit.id <$> hs) `sublist_of` (Habit.id <$> habits st) ->
             (Completion.id <$> cs) `sublist_of` (Completion.id <$> completions st) ->
             keys_increasing (mkStore hs cs)).
  { intros hs cs H1 H2. unfold keys_increasing. simpl.
    eauto 10 using StronglySorted_sublist, Forall_sublist. }
  destruct req as [today op]. unfold step. simpl.
  destruct (handle today op st) as [[r st']|e] eqn:E; [|done].
  destruct op; simpl in E.
  - unfold add_habit in E. inv_bind E. injection E as _ <-.
    unfold keys_increasing. simpl. rewrite fmap_app. simpl.
    destruct (keys_snoc _ Hh Hhp). done.
  - unfold toggle_completion in E.
    destruct (Habit_get habit_id st) as [habit|]; simpl in E; [|discriminate E].
    destruct (head _); injection E as _ <-.
    + apply Hsub; [done|]. apply fmap_sublist, sublist_filter.
    + unfold keys_increasing. simpl. rewrite fmap_app. simpl.
      destruct (keys_snoc _ Hc Hcp). done.
  - unfold reset_week in E. inv_bind E. injection E as _ <-.
    apply Hsub; [done|]. apply fmap_sublist, delete_rows_sublist.
  - unfold delete_habit in E. inv_bind E. injection E as _ <-.
    apply Hsub; [apply fmap_sublist, sublist_filter|]. apply fmap_sublist.
    etrans; [apply delete_rows_sublist|apply sublist_filter].
  - unfold edit_habit_POST in E. inv_bind E. injection E as _ <-.
    apply Hsub; [by rewrite Habit_update_ids|done].
  - unfold update_time_of_day in E. inv_bind E. injection E as _ <-.
    apply Hsub; [by rewrite Habit_update_ids|done].
Qed.

Lemma keys_increasing_run (reqs : list (Z * Op)) (st : Store) :
  keys_increasing st -> keys_increasing (run reqs st).
Proof.
  unfold run. revert st. induction reqs as [|req reqs IH]; intros st Hk; simpl; [done|].
  apply IH. by apply keys_increasing_step.
Qed.

(** X15: In every store reached from the empty one the keys of both tables are
    positive and grow in the order the rows were created, so the admin
    listing, ordered by id, shows habits and completions in creation
    order: it is the two tables as stored. *)
Theorem admin_panel_creation_order (reqs : list (Z * Op)) :
  let st := run reqs empty_store in
  keys_increasing st /\ admin_panel st = (habits st, completions st).
Proof.
  intros st.
  assert (Hk : keys_increasing st).
  { apply keys_increasing_run. repeat split; constructor. }
  split; [exact Hk|]. destruct Hk as (Hh & Hc & _ & _).
  unfold admin_panel. by rewrite !list_sort_increasing.
Qed.
